(** * A model of the MCP chat client (controller.py, mcp_handler.py, llm_handler.py)

    The three classes of the program are embedded as state-passing
    functions over one [State] record: the conversation history kept by
    [AppController], the client handle kept by [LLMHandler], the session
    handle and the lifecycle-task reference kept by [MCPHandler], the
    asyncio tasks they refer to, and the trace of everything the program
    shows on the GUI or sends over the network.

    Whatever lives outside the repository (the completion endpoint, the MCP
    session and the classes of its package, the json module) and whatever
    the other callbacks of the event loop do while a coroutine is suspended
    is an [Oracle], a record of functions the definitions take as a
    parameter. *)

From stdpp Require Import base strings list gmap pretty.
From Stdlib Require Import Ascii Lia.

Open Scope string_scope.
Open Scope list_scope.

(** ** Python exceptions *)

Inductive exn_class :=
| FileNotFoundError
| ClosedResourceError          (* anyio.ClosedResourceError *)
| ValueError
| IndexError
| KeyError
| TypeError
| APIError                     (* openai.APIError, openai.AuthenticationError *)
| JSONDecodeError              (* json.JSONDecodeError *)
| RecursionError
| AttributeError
| OtherException               (* any other subclass of Exception *)
| CancelledError.              (* asyncio.CancelledError derives from BaseException only *)

(** An exception object: its class and [str(e)]. *)
Record exn := mkExn { exn_class_of : exn_class; exn_str : string }.

(** [isinstance(e, Exception)]: what an [except Exception] clause catches. *)
Definition is_Exception (e : exn) : bool :=
  match exn_class_of e with
  | CancelledError => false
  | _ => true
  end.

(** The result of running a piece of Python: a value, or a raised exception. *)
Inductive outcome (A : Type) :=
| Returns (a : A)
| Raises (e : exn).
Arguments Returns {A} a.
Arguments Raises {A} e.

(** ** JSON-like Python data (dicts keep their insertion order) *)

#[warnings="-register-all"]
Inductive json :=
| JNull
| JBool (b : bool)
| JNum (n : Z)
| JStr (s : string)
| JList (l : list json)
| JDict (d : list (string * json)).

(** [isinstance(v, dict)] *)
Definition is_dict (v : json) : bool :=
  match v with JDict _ => true | _ => false end.

Definition json_of_option_str (o : option string) : json :=
  match o with Some s => JStr s | None => JNull end.

(** ** The data of the conversation *)

(** A tool-call request of an assistant message: [tool_call.id],
    [tool_call.function.name], [tool_call.function.arguments]. *)
Record tool_call := mkToolCall {
  tc_id : string;
  tc_name : string;
  tc_arguments : string
}.

(** The values held by the keys of a history message. *)
Inductive value :=
| VNone
| VStr (s : string)
| VToolCalls (l : list tool_call).

#[global] Instance tool_call_eq_dec : EqDecision tool_call.
Proof. solve_decision. Defined.
#[global] Instance value_eq_dec : EqDecision value.
Proof. solve_decision. Defined.

(** A history message is a Python dict with string keys. *)
Abbreviation message := (gmap string value).

(** An MCP tool descriptor. [inputSchema = None] stands for an object
    without that attribute; an attribute holding [None] is [Some JNull]. *)
Record Tool := mkTool {
  tool_name : string;
  tool_description : option string;
  inputSchema : option json
}.

(** The items of [tool_result.content], by the class [call_tool] tests
    for. [ImageContent None] is an image object without a [format]
    attribute, which is what the [ImageContent] of the mcp package is (it
    has [data] and [mimeType]). *)
Inductive content_item :=
| TextContent (text : string)
| JsonContent (json_value : json)
| ImageContent (format : option string)
| UnknownContent (repr : string).     (* any other object, with its [str(item)] *)

(** A field of a pydantic model: left unset, or set (possibly to [None]). *)
Inductive field (A : Type) :=
| Unset
| FieldSet (v : option A).
Arguments Unset {A}.
Arguments FieldSet {A} v.

(** [getattr(obj, name)] on a pydantic field: an unset optional field reads [None]. *)
Definition field_get {A} (f : field A) : option A :=
  match f with Unset => None | FieldSet v => v end.

(** What [get_completion] can hand back to the controller. *)
Inductive response :=
| ChatCompletionMessage (role : string) (content : field string)
                        (tool_calls : field (list tool_call))   (* pydantic, has [model_dump] *)
| SimpleNamespace (role : string) (content : option string)
                  (tool_calls : option (list tool_call))        (* no [model_dump] *)
| Opaque (repr : string).     (* an object without a [role] attribute, with its [str] *)

(** The two shapes of the request [get_completion] sends. *)
Inductive completion_request :=
| CreateWithTools (model : string) (msgs : list message) (tools : list json)
    (* tool_choice="auto" *)
| CreatePlain (model : string) (msgs : list message).
    (* temperature=0.7, max_tokens=800 *)

(** ** asyncio tasks *)

(** Where the lifecycle coroutine [_mcp_session_runner] is suspended. *)
Inductive runner_pc :=
| NotStarted (server_script_path : string)   (* created, first step not run yet *)
| AwaitTransport       (* entering [stdio_client(...)] *)
| AwaitHandshake       (* [await session.initialize()] *)
| Idle.                (* [await asyncio.sleep(1)] in the keep-alive loop *)

Inductive task_result :=
| Finished
| Cancelled
| Failed (e : exn).

Inductive task_state :=
| Pending (pc : runner_pc)
| Done (r : task_result).

(** [task.done()] for the task object a reference points to. *)
Definition task_done (tasks : gmap nat task_state) (t : nat) : bool :=
  match tasks !! t with
  | Some (Pending _) => false
  | _ => true
  end.

(** ** The objects of the program *)

Record Session := mkSession { session_id : nat; is_closed : bool }.

(** The callables given to [MCPHandler] as [update_callback]: the program
    has one, the bound method [AppController._handle_handler_update]. *)
Inductive callback := bound_handle_handler_update.

Record MCPHandler := mkMCPHandler {
  session : option Session;
  _connection_task : option nat;
  _update_callback : option callback
}.

(** The client object built by [AzureOpenAI(...)]. *)
Record AzureOpenAI := mkClient { api_key : string; azure_endpoint : string }.

(** ** What the program does to the outside *)

(** The state of the program at the moment a coroutine is suspended. *)
Record Snapshot := mkSnapshot {
  found_messages : list message;
  found_llm : option AzureOpenAI;
  found_handler : MCPHandler;
  found_deployment : string;
  found_tasks : gmap nat task_state;
  found_clock : nat
}.

Inductive event :=
| UpdateOutput (text role : string)           (* gui.update_output(text, role) *)
| UpdateStatus (text : string)                (* gui.update_status(text) *)
| Print (text : string)                       (* print(text) *)
| CompletionsCreate (req : completion_request)  (* llm.chat.completions.create(...) *)
| SessionListTools                            (* session.list_tools() *)
| SessionCallTool (name : string) (arguments : json)   (* session.call_tool(...) *)
| CreateTask (coroutine : string)             (* asyncio.create_task(...) *)
| CancelTask (t : nat)                        (* task.cancel() *)
| Yields (found : Snapshot)
    (* the coroutine is suspended at an [await]: what the callbacks that run
       meanwhile find *)
| Elsewhere (e : event).
    (* another callback of the event loop did [e] while this coroutine was suspended *)

(** Events that reach the completion endpoint or the MCP server. *)
Definition is_network (e : event) : bool :=
  match e with
  | CompletionsCreate _ | SessionListTools | SessionCallTool _ _ => true
  | _ => false
  end.

Record State := mkState {
  messages : list message;              (* AppController.messages *)
  llm : option AzureOpenAI;             (* LLMHandler.llm *)
  mcp_handler : MCPHandler;             (* AppController.mcp_handler *)
  deployment : string;                  (* gui.get_azure_config()["deployment"] *)
  tasks : gmap nat task_state;          (* the tasks of the event loop *)
  trace : list event;                   (* oldest first *)
  clock : nat                           (* number of calls made to the outside so far *)
}.

Definition set_messages (f : list message -> list message) (s : State) : State :=
  mkState (f (messages s)) (llm s) (mcp_handler s) (deployment s) (tasks s) (trace s) (clock s).
Definition set_llm (c : option AzureOpenAI) (s : State) : State :=
  mkState (messages s) c (mcp_handler s) (deployment s) (tasks s) (trace s) (clock s).
Definition set_mcp (h : MCPHandler) (ts : gmap nat task_state) (s : State) : State :=
  mkState (messages s) (llm s) h (deployment s) ts (trace s) (clock s).
Definition add_events (es : list event) (s : State) : State :=
  mkState (messages s) (llm s) (mcp_handler s) (deployment s) (tasks s) (trace s ++ es) (clock s).
Definition tick (s : State) : State :=
  mkState (messages s) (llm s) (mcp_handler s) (deployment s) (tasks s) (trace s) (S (clock s)).

(** What a coroutine that is suspended in [s] leaves to the other callbacks,
    and the state made of it and of the trace up to that moment. *)
Definition suspended_view (s : State) : Snapshot :=
  mkSnapshot (messages s) (llm s) (mcp_handler s) (deployment s) (tasks s) (clock s).
Definition suspended_state (tr : list event) (v : Snapshot) : State :=
  mkState (found_messages v) (found_llm v) (found_handler v) (found_deployment v)
          (found_tasks v) tr (found_clock v).

Definition set_session (o : option Session) (h : MCPHandler) : MCPHandler :=
  mkMCPHandler o (_connection_task h) (_update_callback h).
Definition set_connection_task (o : option nat) (h : MCPHandler) : MCPHandler :=
  mkMCPHandler (session h) o (_update_callback h).

(** ** What runs while a coroutine is suspended

    At an [await] the event loop runs its other callbacks: the handlers of
    the window ([send_message_to_llm], [update_azure_config], the buttons)
    and the steps of the other tasks (another turn, the connection
    lifecycle). They append to the history (nothing in the program removes
    from it or reorders it, but for the removal in [send_message_to_llm],
    which undoes an append of the same synchronous call), they may replace
    the client and the deployment name, they change the handler and the
    tasks of the loop, and they show and send things of their own, which
    the trace keeps apart as [Elsewhere] events. The clock is left alone:
    it numbers the calls of the coroutine under study, and the answers it
    indexes are arbitrary, so that the calls of the others need no count.
    [callbacks_interfere] below shows that what each operation of the
    program does is such an interference. *)
Record Interference := mkInterference {
  appended : list message;
  llm_after : option AzureOpenAI;
  deployment_after : string;
  handler_after : MCPHandler;
  tasks_after : gmap nat task_state;
  events_elsewhere : list event
}.

Definition interfere (i : Interference) (s : State) : State :=
  mkState (messages s ++ appended i) (llm_after i) (handler_after i) (deployment_after i)
          (tasks_after i) (trace s ++ (Elsewhere <$> events_elsewhere i)) (clock s).

(** Nothing else runs: the state is left as it is. *)
Definition no_interference (s : State) : Interference :=
  mkInterference [] (llm s) (deployment s) (mcp_handler s) (tasks s) [].

(** ** The outside world *)

Record Oracle := mkOracle {
  json_dumps : json -> string;                 (* json.dumps(v) *)
  json_dumps_indent : json -> string;          (* json.dumps(v, indent=2) *)
  json_loads : string -> outcome json;
      (* json.loads(s): the value, json.JSONDecodeError for text that is not
         JSON, or what else the parser raises (RecursionError on deeply
         nested text) *)
  has_JsonContent : bool;                      (* whether the module mcp.types has JsonContent *)
  format_exc : exn -> string;                  (* traceback.format_exc() while handling e *)
  new_client : string -> string -> outcome AzureOpenAI;   (* AzureOpenAI(api_key=, azure_endpoint=) *)
  completions_create : nat -> completion_request -> outcome (list response);
      (* the [choices] of the answer, each by its [message] *)
  session_list_tools : nat -> outcome (list Tool);
  session_call_tool : nat -> string -> json -> outcome (list content_item);
  other_tasks : nat -> State -> Interference
      (* what the rest of the event loop does while a coroutine awaits, given
         the state it is suspended in *)
}.

(** ** A state and exception monad *)

Definition M (A : Type) : Type := State -> outcome A * State.

#[global] Instance M_ret : MRet M := fun A a s => (Returns a, s).
#[global] Instance M_bind : MBind M := fun A B f m s =>
  match m s with
  | (Returns a, s') => f a s'
  | (Raises e, s') => (Raises e, s')
  end.

Definition raise {A} (e : exn) : M A := fun s => (Raises e, s).
Definition get_state : M State := fun s => (Returns s, s).
Definition modify (f : State -> State) : M unit := fun s => (Returns tt, f s).
Definition emit (e : event) : M unit := modify (add_events [e]).

(** [try: body / except Exception as e: handler e] *)
Definition try_except {A} (body : M A) (handler : exn -> M A) : M A := fun s =>
  match body s with
  | (Raises e, s') => if is_Exception e then handler e s' else (Raises e, s')
  | r => r
  end.

(** [try: body / finally: final] *)
Definition try_finally {A} (body : M A) (final : M unit) : M A := fun s =>
  match body s with
  | (r, s') =>
      match final s' with
      | (Returns _, s'') => (r, s'')
      | (Raises e, s'') => (Raises e, s'')
      end
  end.

(** [for x in xs: body x] *)
Fixpoint for_each {A} (xs : list A) (body : A -> M unit) : M unit :=
  match xs with
  | [] => mret tt
  | x :: xs' => body x ;; for_each xs' body
  end.

(** Python truthiness of a string, of an optional string, of an optional list. *)
Definition truthy_str (s : string) : bool :=
  match s with EmptyString => false | _ => true end.
Definition truthy_opt_str (o : option string) : bool :=
  match o with Some s => truthy_str s | None => false end.
Definition truthy_list {A} (l : list A) : bool :=
  match l with [] => false | _ => true end.
Definition truthy_opt_list {A} (o : option (list A)) : bool :=
  match o with Some l => truthy_list l | None => false end.

(** The line feed and the double quote, as strings. *)
Definition LF : string := String (ascii_of_nat 10) EmptyString.
Definition DQ : string := String (ascii_of_nat 34) EmptyString.

(** [str.upper()] on the ASCII letters (the roles passed to [_log] are ASCII). *)
Definition upper_ascii (c : ascii) : ascii :=
  let n := nat_of_ascii c in
  if bool_decide (97 <= n <= 122)%nat then ascii_of_nat (n - 32) else c.
Fixpoint upper (s : string) : string :=
  match s with
  | EmptyString => EmptyString
  | String c s' => String (upper_ascii c) (upper s')
  end.

(** [AppController._handle_handler_update], the callback given to [MCPHandler]. *)
Definition _handle_handler_update (message role : string) : list event :=
  if bool_decide (role = "status") then [UpdateStatus message]
  else [UpdateOutput message role].

(** Calling [callback(message, role)]. *)
Definition call_callback (cb : callback) (message role : string) : list event :=
  match cb with
  | bound_handle_handler_update => _handle_handler_update message role
  end.

Section Model.

Variable env : Oracle.

(** A call that suspends the coroutine: the request goes out, the other
    callbacks of the loop run on the state the coroutine is suspended in,
    then the answer arrives. *)
Definition await_io {A} (e : event) (answer : nat -> outcome A) : M A := fun s =>
  let s1 := add_events [e; Yields (suspended_view s)] s in
  (answer (clock s1), tick (interfere (other_tasks env (clock s1) s1) s1)).

(** The outcome of an expression that does not touch the state. *)
Definition lift_outcome {A} (o : outcome A) : M A := fun s => (o, s).

(** A blocking call to the outside: nothing else runs meanwhile. *)
Definition blocking_io {A} (e : event) (answer : nat -> outcome A) : M A := fun s =>
  let s1 := add_events [e] s in
  (answer (clock s1), tick s1).

(** ** mcp_handler.py *)

(** [MCPHandler.__init__] *)
Definition MCPHandler_init (update_callback : option callback)
  : MCPHandler :=
  mkMCPHandler None None update_callback.

(** [MCPHandler.is_connected] *)
Definition is_connected (ts : gmap nat task_state) (self : MCPHandler) : bool :=
  match session self, _connection_task self with
  | Some _, Some t => negb (task_done ts t)
  | _, _ => false
  end.

(** [MCPHandler._log] *)
Definition _log (message : string) (role : string) : M unit := fun s =>
  match _update_callback (mcp_handler s) with
  | Some cb => (Returns tt, add_events (call_callback cb message role) s)
  | None => (Returns tt, add_events [Print ("[" +:+ upper role +:+ "] " +:+ message)] s)
  end.

(** [self._update_callback(message, role)], called without the check [_log] makes. *)
Definition call_update_callback (message : string) (role : string) : M unit := fun s =>
  match _update_callback (mcp_handler s) with
  | Some cb => (Returns tt, add_events (call_callback cb message role) s)
  | None => (Raises (mkExn TypeError "'NoneType' object is not callable"), s)
  end.

(** The dict [list_tools] builds for its log line. *)
Definition tools_dict_for_log (tools_list : list Tool) : json :=
  JDict [("tools",
          JList (map (fun tool =>
                        JDict [("name", JStr (tool_name tool));
                               ("description", json_of_option_str (tool_description tool));
                               ("parameters", default JNull (inputSchema tool))])
                     tools_list))].

(** [MCPHandler.list_tools]; [None] is Python's [None]. *)
Definition list_tools (log : bool) : M (option (list Tool)) :=
  s ← get_state;
  if negb (is_connected (tasks s) (mcp_handler s)) then
    _log "Not connected to MCP server." "system";;
    mret None
  else
    try_except
      (tools_list ← await_io SessionListTools (session_list_tools env);
       (if log
        then _log ("Available tools:" +:+ LF +:+ json_dumps_indent env (tools_dict_for_log tools_list))
                  "system"
        else mret tt);;
       mret (Some tools_list))
      (fun e =>
         _log ("Error listing tools: " +:+ exn_str e) "system";;
         _log (format_exc env e) "system";;
         mret None).

(** Evaluating [types.JsonContent] in a package that has no such class. *)
Definition no_JsonContent : exn :=
  mkExn AttributeError "module 'mcp.types' has no attribute 'JsonContent'".

(** Reading [item.format] on an image object that has no such attribute. *)
Definition no_format : exn :=
  mkExn AttributeError "'ImageContent' object has no attribute 'format'".

(** One item of a tool result, made serializable: the [if]/[elif] chain of
    [call_tool]. Its second test evaluates [types.JsonContent], so every
    item that is not a [TextContent] raises there when the package has no
    such class. *)
Definition serialize_item (item : content_item) : outcome json :=
  match item with
  | TextContent text => Returns (JDict [("type", JStr "text"); ("text", JStr text)])
  | JsonContent json_value =>
      if has_JsonContent env
      then Returns (JDict [("type", JStr "json"); ("json", json_value)])
      else Raises no_JsonContent
  | ImageContent format =>
      if has_JsonContent env
      then match format with
           | Some format =>
               Returns (JDict [("type", JStr "image"); ("format", JStr format);
                               ("description", JStr "Image data (not serialized)")])
           | None => Raises no_format
           end
      else Raises no_JsonContent
  | UnknownContent repr =>
      if has_JsonContent env
      then Returns (JDict [("type", JStr "unknown"); ("content", JStr repr)])
      else Raises no_JsonContent
  end.

(** [for item in tool_result.content: serializable_content.append(...)]:
    the list built when no item raises, the first exception otherwise. *)
Fixpoint serialize_content (content : list content_item) : outcome (list json) :=
  match content with
  | [] => Returns []
  | item :: rest =>
      match serialize_item item with
      | Returns j =>
          match serialize_content rest with
          | Returns js => Returns (j :: js)
          | Raises e => Raises e
          end
      | Raises e => Raises e
      end
  end.

(** The payload [{"error": msg}]. *)
Definition error_payload (msg : string) : json := JDict [("error", JStr msg)].

(** [MCPHandler.call_tool] *)
Definition call_tool (tool_name : string) (arguments : json) : M json :=
  s ← get_state;
  if negb (is_connected (tasks s) (mcp_handler s)) then
    _log "Not connected to MCP server." "system";;
    mret (error_payload "Not connected to MCP server.")
  else
    try_except
      (content ← await_io (SessionCallTool tool_name arguments)
                          (fun k => session_call_tool env k tool_name arguments);
       serializable_content ← lift_outcome (serialize_content content);
       mret (JList serializable_content))
      (fun e =>
         _log ("Error calling tool '" +:+ tool_name +:+ "': " +:+ exn_str e) "system";;
         _log (format_exc env e) "system";;
         mret (error_payload (exn_str e))).

(** ** llm_handler.py *)

(** [LLMHandler.initialize]: the pair [(success, message)]. *)
Definition initialize (api_key endpoint : option string) : M (bool * string) :=
  let missing : M (bool * string) :=
    emit (Print "Warning: Azure OpenAI client not initialized (missing API key or endpoint).");;
    modify (set_llm None);;
    mret (false, "Missing API key or endpoint") in
  match api_key, endpoint with
  | Some key, Some url =>
      if negb (truthy_str key) || negb (truthy_str url) then missing
      else
        match new_client env key url with
        | Returns client =>
            modify (set_llm (Some client));;
            emit (Print "Azure OpenAI client initialized successfully.");;
            mret (true, "Azure OpenAI client initialized.")
        | Raises e =>
            match exn_class_of e with
            | APIError =>
                emit (Print ("Error initializing Azure OpenAI client: " +:+ exn_str e));;
                modify (set_llm None);;
                mret (false, "Error initializing Azure OpenAI client: " +:+ exn_str e)
            | CancelledError => raise e
            | _ =>
                emit (Print ("Unexpected error initializing Azure OpenAI client: " +:+ exn_str e));;
                modify (set_llm None);;
                mret (false, "Unexpected error initializing Azure OpenAI client: " +:+ exn_str e)
            end
        end
  | _, _ => missing
  end.

(** [LLMHandler.is_initialized] *)
Definition is_initialized (s : State) : bool :=
  match llm s with Some _ => true | None => false end.

(** The fallback schema [{"type": "object", "properties": {}}]. *)
Definition empty_schema : json :=
  JDict [("type", JStr "object"); ("properties", JDict [])].

(** The body of the loop of [format_tools_for_openai]. *)
Definition format_tool (tool : Tool) : json :=
  let parameters := default empty_schema (inputSchema tool) in
  let parameters := if is_dict parameters then parameters else empty_schema in
  JDict [("type", JStr "function");
         ("function", JDict [("name", JStr (tool_name tool));
                             ("description", json_of_option_str (tool_description tool));
                             ("parameters", parameters)])].

(** [LLMHandler.format_tools_for_openai]; the argument may be [None]. *)
Definition format_tools_for_openai (mcp_tools : option (list Tool)) : list json :=
  match mcp_tools with
  | None | Some [] => []
  | Some tools => map format_tool tools
  end.

(** The request [get_completion] makes: with the tools when there are some. *)
Definition completion_request_of (deployment : string) (msgs : list message)
    (tools : option (list json)) : completion_request :=
  match tools with
  | Some ((_ :: _) as defs) => CreateWithTools deployment msgs defs
  | _ => CreatePlain deployment msgs
  end.

(** [LLMHandler.get_completion] *)
Definition get_completion (deployment : string) (msgs : list message)
    (tools : option (list json)) : M response :=
  s ← get_state;
  match llm s with
  | None => raise (mkExn ValueError "LLM client is not initialized.")
  | Some _ =>
      let req := completion_request_of deployment msgs tools in
      try_except
        (choices ← blocking_io (CompletionsCreate req) (fun k => completions_create env k req);
         match choices with
         | [] => raise (mkExn IndexError "list index out of range")
         | choice :: _ => mret choice
         end)
        (fun e =>
           emit (Print ("Error during LLM completion: " +:+ exn_str e));;
           mret (SimpleNamespace "assistant"
                   (Some ("Error communicating with LLM: " +:+ exn_str e)) None))
  end.

(** ** controller.py *)

Definition SYSTEM_PROMPT : string :=
  "You are 'Assistant', a helpful, conversational AI assistant interacting with a user via a chat interface.
Your goal is to provide accurate information and complete tasks as requested.

**Core Capabilities:**
1.  Engage in conversation and answer general questions using your internal knowledge.
2.  Utilize available tools to fetch specific, real-time, or calculated information when necessary.

**Tool Usage Policy:**
* Analyze the user's request to determine if it requires capabilities beyond your internal knowledge (e.g., calculating current travel time between specific locations).
* If a tool is appropriate:
    * Identify the correct tool (e.g., `get_travel_time`).
    * Extract all required parameters accurately from the user's message (e.g., for `get_travel_time`, you need `origin`, `destination`, and `mode`).
    * If essential parameters are missing, ask the user clarifying questions *before* attempting to use the tool.
    * Once the tool provides a result, synthesize that information into a friendly, easy-to-understand response for the user. Do not just output the raw tool result unless specifically asked.
* If the request can be fully answered without a tool, do so directly.

**Response Guidelines:**
* Be polite, helpful, and clear.
* Keep responses concise but informative.
* Acknowledge the use of a tool subtly if it adds clarity (e.g., " +:+ DQ +:+
  "According to the travel time tool..." +:+ DQ +:+
  ").
* Do not invent information or pretend to have capabilities you lack.
".

(** The first message of every history. *)
Definition system_message : message :=
  {[ "role" := VStr "system"; "content" := VStr SYSTEM_PROMPT ]}.

Definition user_message (user_input : string) : message :=
  {[ "role" := VStr "user"; "content" := VStr user_input ]}.

(** The tool-role message appended for one tool call. *)
Definition tool_message (tool_call_id name content : string) : message :=
  {[ "tool_call_id" := VStr tool_call_id; "role" := VStr "tool";
     "name" := VStr name; "content" := VStr content ]}.

(** [AppController._initialize_llm_from_config] *)
Definition _initialize_llm_from_config (api_key endpoint : option string) : M unit :=
  initialize api_key endpoint ≫= fun r : bool * string =>
  emit (UpdateOutput r.2 "system");;
  if negb r.1 then emit (UpdateStatus "LLM Init Failed")
  else emit (UpdateStatus "LLM Ready").

(** The state [AppController.__init__] starts from, before the client is set up. *)
Definition fresh_state (gui_deployment : string) : State :=
  mkState [system_message] None (MCPHandler_init (Some bound_handle_handler_update))
          gui_deployment ∅ [] 0.

(** [AppController.__init__], for the configuration read by config.py. *)
Definition AppController_init (api_key endpoint : option string) (gui_deployment : string)
  : outcome unit * State :=
  _initialize_llm_from_config api_key endpoint (fresh_state gui_deployment).

(** [AppController.send_message_to_llm] *)
Definition send_message_to_llm (user_input : string) : M unit :=
  if negb (truthy_str user_input) then mret tt
  else
    emit (UpdateOutput user_input "user");;
    modify (set_messages (fun l => l ++ [user_message user_input]));;
    s ← get_state;
    if negb (is_initialized s) then
      emit (UpdateOutput "Azure OpenAI client is not initialized. Please check settings." "system");;
      match last (messages s) with
      | None => mret tt
      | Some m =>
          match m !! "role" with
          | None => raise (mkExn KeyError "'role'")
          | Some r =>
              if bool_decide (r = VStr "user")
              then modify (set_messages (fun l => removelast l))
              else mret tt
          end
      end
    else
      emit (UpdateStatus "Processing...");;
      emit (CreateTask "_process_llm_interaction").

(** *** The conversation loop *)

(** Python truthiness of a value stored in a message. *)
Definition truthy_value (v : value) : bool :=
  match v with
  | VNone => false
  | VStr s => truthy_str s
  | VToolCalls l => truthy_list l
  end.

(** One key of [model_dump(exclude_unset=True)]: unset fields are left out. *)
Definition dump_field {A} (key : string) (inj : A -> value) (f : field A) (d : message)
  : message :=
  match f with
  | Unset => d
  | FieldSet None => <[key := VNone]> d
  | FieldSet (Some v) => <[key := inj v]> d
  end.

(** One key of the manual conversion: [None] values are cleaned up. *)
Definition manual_field {A} (key : string) (inj : A -> value) (o : option A) (d : message)
  : message :=
  match o with
  | None => d
  | Some v => <[key := inj v]> d
  end.

(** [response_dump], by either of the two conversions. *)
Definition response_dump_of (response_message : response) : message :=
  match response_message with
  | ChatCompletionMessage role content tool_calls =>
      <["role" := VStr role]>
        (dump_field "content" VStr content
           (dump_field "tool_calls" VToolCalls tool_calls ∅))
  | SimpleNamespace role content tool_calls =>
      <["role" := VStr role]>
        (manual_field "content" VStr content
           (manual_field "tool_calls" VToolCalls tool_calls ∅))
  | Opaque _ => ∅
  end.

(** [response_message.content] *)
Definition response_content (response_message : response) : option string :=
  match response_message with
  | ChatCompletionMessage _ content _ => field_get content
  | SimpleNamespace _ content _ => content
  | Opaque _ => None
  end.

(** [getattr(response_message, 'tool_calls', None)] *)
Definition response_tool_calls (response_message : response) : option (list tool_call) :=
  match response_message with
  | ChatCompletionMessage _ _ tool_calls => field_get tool_calls
  | SimpleNamespace _ _ tool_calls => tool_calls
  | Opaque _ => None
  end.

Inductive loop_control := Continue | Break.

(** The answer given for a tool call while the server is not connected. *)
Definition not_connected_message (tc : tool_call) : message :=
  tool_message (tc_id tc) (tc_name tc)
               (json_dumps env (error_payload "MCP server not connected.")).

(** The body of [for tool_call in tool_calls] when connected. *)
Definition run_tool_call (tc : tool_call) : M unit :=
  let function_name := tc_name tc in
  tool_response_content ←
    match json_loads env (tc_arguments tc) with
    | Raises e =>
        match exn_class_of e with
        | JSONDecodeError =>
            emit (UpdateOutput ("Error decoding arguments for tool " +:+ function_name +:+ ": "
                                +:+ tc_arguments tc) "system");;
            mret (json_dumps env (error_payload "Invalid arguments JSON"))
        | _ => raise e
        end
    | Returns function_args =>
        emit (UpdateOutput ("Tool Call:" +:+ LF +:+ "  Name: " +:+ function_name +:+ LF
                            +:+ "  Args: " +:+ json_dumps_indent env function_args)
                           "tool_call");;
        tool_result ← call_tool function_name function_args;
        emit (UpdateOutput ("Tool Response:" +:+ LF +:+ json_dumps_indent env tool_result)
                           "tool_response");;
        mret (json_dumps env tool_result)
    end;
  modify (set_messages (fun l => l ++ [tool_message (tc_id tc) function_name
                                                     tool_response_content])).

(** Step 4 of the loop body: execute the tool calls. *)
Definition execute_tool_calls (tool_calls : list tool_call) : M loop_control :=
  s ← get_state;
  if negb (is_connected (tasks s) (mcp_handler s)) then
    emit (UpdateOutput "LLM requested tool call, but not connected to MCP server." "system");;
    for_each tool_calls
      (fun tc => modify (set_messages (fun l => l ++ [not_connected_message tc])));;
    mret Continue
  else
    for_each tool_calls run_tool_call;;
    mret Continue.

(** The part of the loop body that puts the assistant message into the
    history; [Break] is the [break] of its [elif] branch. *)
Definition append_assistant_message (response_dump : message) (content : option string)
  : M loop_control :=
  if match response_dump !! "tool_calls" with
     | Some v => truthy_value v
     | None => false
     end
  then
    s ← get_state;
    (if match last (messages s) with
        | None => true
        | Some m => negb (bool_decide (m = response_dump))
        end
     then modify (set_messages (fun l => l ++ [response_dump]))
     else mret tt);;
    mret Continue
  else if negb (truthy_opt_str content) then
    emit (UpdateOutput "(Assistant message has no content or tool calls)" "system");;
    mret Break
  else mret Continue.

(** One iteration of the [while] loop, after [iterations += 1]. *)
Definition loop_body (openai_tool_definitions : list json) (iterations : nat)
  : M loop_control :=
  emit (UpdateStatus ("LLM Call " +:+ pretty iterations +:+ "..."));;
  s ← get_state;
  response_message ←
    get_completion (deployment s) (messages s)
      (if truthy_list openai_tool_definitions then Some openai_tool_definitions else None);
  match response_message with
  | Opaque repr =>
      emit (UpdateOutput ("Failed to get LLM response: " +:+ repr) "system");;
      mret Break
  | _ =>
      let response_dump := response_dump_of response_message in
      let content := response_content response_message in
      (if truthy_opt_str content
       then emit (UpdateOutput (default EmptyString content) "assistant")
       else mret tt);;
      match response_tool_calls response_message with
      | Some ((_ :: _) as tool_calls) =>
          c ← append_assistant_message response_dump content;
          match c with
          | Break => mret Break
          | Continue => execute_tool_calls tool_calls
          end
      | _ =>
          (if negb (truthy_opt_str content)
           then emit (UpdateOutput "(No text response and no tool call)" "system")
           else mret tt);;
          mret Break
      end
  end.

Definition max_iterations : nat := 5.

(** [while iterations < max_iterations: iterations += 1; ...]. The first
    argument bounds the number of iterations still to run; the result is the
    value of [iterations] when the loop is left. *)
Fixpoint while_loop (fuel : nat) (openai_tool_definitions : list json) (iterations : nat)
  : M nat :=
  if bool_decide (iterations < max_iterations) then
    match fuel with
    | O => mret iterations
    | S fuel' =>
        let iterations := iterations + 1 in
        c ← loop_body openai_tool_definitions iterations;
        match c with
        | Break => mret iterations
        | Continue => while_loop fuel' openai_tool_definitions iterations
        end
    end
  else mret iterations.

(** The notice shown after the loop. *)
Definition max_iterations_notice : event :=
  UpdateOutput ("Reached maximum tool call iterations (" +:+ pretty max_iterations +:+ ").")
               "system".

(** Step 1 of [_process_llm_interaction]: the tool catalog of this turn. *)
Definition refresh_tool_catalog : M (list json) :=
  s ← get_state;
  if is_connected (tasks s) (mcp_handler s) then
    current_tools ← list_tools false;
    if truthy_opt_list current_tools then mret (format_tools_for_openai current_tools)
    else
      emit (UpdateOutput "Connected to MCP, but no tools found or error listing tools."
                         "system");;
      mret []
  else
    emit (UpdateOutput "Not connected to MCP server. Proceeding without tools." "system");;
    mret [].

(** Steps 1 to 4 of [_process_llm_interaction]: the catalog, then the loop
    started with [iterations = 0]; the result is [iterations] after the loop. *)
Definition run_iterations : M nat :=
  openai_tool_definitions ← refresh_tool_catalog;
  while_loop max_iterations openai_tool_definitions 0.

(** [AppController._process_llm_interaction] *)
Definition _process_llm_interaction : M unit :=
  try_finally
    (try_except
       (iterations ← run_iterations;
        if bool_decide (max_iterations <= iterations) then emit max_iterations_notice
        else mret tt)
       (fun e =>
          emit (UpdateOutput ("Error during LLM processing: " +:+ exn_str e) "system");;
          emit (UpdateOutput ("Traceback: " +:+ format_exc env e) "system")))
    (emit (UpdateStatus "Ready")).

(** [AppController.update_azure_config] *)
Definition update_azure_config (api_key endpoint gui_deployment : string) : M unit :=
  modify (fun s => mkState (messages s) (llm s) (mcp_handler s) gui_deployment (tasks s)
                           (trace s) (clock s));;
  emit (UpdateStatus "Re-initializing LLM...");;
  initialize (Some api_key) (Some endpoint) ≫= fun r : bool * string =>
  emit (UpdateOutput r.2 "system");;
  emit (UpdateStatus (if r.1 then "LLM Ready" else "LLM Init Failed")).

(** [AppController.list_mcp_tools], with the task it creates run at once. *)
Definition list_mcp_tools : M unit :=
  s ← get_state;
  if negb (is_connected (tasks s) (mcp_handler s)) then
    emit (UpdateOutput "Not connected to MCP server." "system")
  else
    emit (CreateTask "list_tools");;
    list_tools true;;
    mret tt.

(** ** The connection lifecycle under the asyncio event loop *)

(** How a suspended coroutine is woken up: the awaited call completed, or
    an exception is thrown into it. *)
Inductive signal :=
| Resume
| Throw (e : exn).

Inductive step_result :=
| Suspended (pc : runner_pc)
| Completed (r : task_result).

(** How a task ends when its coroutine lets [e] escape. *)
Definition result_of_exn (e : exn) : task_result :=
  match exn_class_of e with
  | CancelledError => Cancelled
  | _ => Failed e
  end.

Definition clear_connection : M unit :=
  modify (fun s => set_mcp (set_session None (mcp_handler s)) (tasks s) s);;
  modify (fun s => set_mcp (set_connection_task None (mcp_handler s)) (tasks s) s).

(** The [try] block of [_mcp_session_runner], from one suspension point to
    the next. Task [t] runs it; the session object it creates is numbered
    after the task. *)
Definition runner_segment (t : nat) (pc : runner_pc) : M runner_pc :=
  match pc with
  | NotStarted server_script_path =>
      _log ("Attempting to start MCP server: " +:+ server_script_path) "system";;
      _log ("Executing command: " +:+ "uv run --with mcp mcp run " +:+ server_script_path)
           "system";;
      mret AwaitTransport
  | AwaitTransport =>
      _log "MCP transport initialized." "system";;
      _log "MCP session created." "system";;
      modify (fun s => set_mcp (set_session (Some (mkSession t false)) (mcp_handler s))
                               (tasks s) s);;
      mret AwaitHandshake
  | AwaitHandshake =>
      _log "MCP session initialized successfully." "system";;
      call_update_callback "Connected" "status";;
      mret Idle
  | Idle => mret Idle
  end.

(** The [except] clauses of [_mcp_session_runner]; what none of them
    catches is raised again. *)
Definition runner_except (e : exn) : M unit :=
  match exn_class_of e with
  | FileNotFoundError =>
      _log "Error: 'uv' command not found. Make sure uv is installed and in your PATH."
           "system"
  | ClosedResourceError =>
      _log "MCP connection was closed (likely by the server)." "system"
  | CancelledError => raise e
  | _ =>
      _log ("MCP connection error: " +:+ exn_str e) "system";;
      _log ("Traceback: " +:+ format_exc env e) "system"
  end.

(** The [finally] block of [_mcp_session_runner]. *)
Definition runner_finally : M unit :=
  _log "MCP connection closed." "system";;
  clear_connection;;
  call_update_callback "Disconnected" "status".

(** [MCPHandler._mcp_session_runner], one step of the coroutine: from the
    suspension point [pc], woken by [sig], to the next suspension or to the
    end of the task. An exception thrown into a coroutine that has not
    started never enters its [try] block. *)
Definition _mcp_session_runner (t : nat) (pc : runner_pc) (sig : signal)
  : State -> step_result * State := fun s =>
  match pc, sig with
  | NotStarted _, Throw e => (Completed (result_of_exn e), s)
  | _, _ =>
      match (match sig with Resume => runner_segment t pc | Throw e => raise e end) s with
      | (Returns pc', s') => (Suspended pc', s')
      | (Raises e, s') =>
          match try_finally (runner_except e) runner_finally s' with
          | (Returns _, s'') => (Completed Finished, s'')
          | (Raises e', s'') => (Completed (result_of_exn e'), s'')
          end
      end
  end.

(** [MCPHandler.connect]; [t] names the task it creates, and the result
    tells whether it created one. *)
Definition connect (server_script_path : string) (t : nat) : M bool :=
  s ← get_state;
  if is_connected (tasks s) (mcp_handler s)
     || bool_decide (is_Some (_connection_task (mcp_handler s)))
  then
    _log "Already connected or connection attempt in progress." "system";;
    mret false
  else
    call_update_callback "Connecting..." "status";;
    emit (CreateTask "mcp_session_runner");;
    modify (fun s => set_mcp (set_connection_task (Some t) (mcp_handler s))
                             (<[t := Pending (NotStarted server_script_path)]> (tasks s)) s);;
    mret true.

(** [MCPHandler._handle_connection_task_completion], for a task that ended with [r]. *)
Definition _handle_connection_task_completion (r : task_result) : M unit :=
  try_finally
    (match r with
     | Finished => _log "MCP connection task finished normally." "system"
     | Cancelled => _log "MCP connection task was cancelled." "system"
     | Failed e =>
         match exn_class_of e with
         | CancelledError => _log "MCP connection task was cancelled." "system"
         | _ => _log ("MCP connection task failed: " +:+ exn_str e) "system"
         end
     end)
    (clear_connection;;
     s ← get_state;
     match _update_callback (mcp_handler s) with
     | Some _ => call_update_callback "Disconnected" "status"
     | None => mret tt
     end).

(** [MCPHandler.disconnect] up to its [await]: the task it has cancelled
    and now waits for, if there is one. *)
Definition disconnect_begin : M (option nat) :=
  s ← get_state;
  match _connection_task (mcp_handler s) with
  | Some t =>
      if negb (task_done (tasks s) t) then emit (CancelTask t);; mret (Some t)
      else mret None
  | None => mret None
  end.

(** [MCPHandler.disconnect] after the [try] around its [await]. *)
Definition disconnect_tail : M unit :=
  s ← get_state;
  (match session (mcp_handler s) with
   | Some sess => if negb (is_closed sess) then mret tt else mret tt
   | None => mret tt
   end);;
  clear_connection;;
  call_update_callback "Disconnected" "status".

(** [MCPHandler.disconnect] from its [await], once the awaited task ended with [r]. *)
Definition disconnect_resume (r : task_result) : M unit :=
  match r with
  | Finished => disconnect_tail
  | Cancelled => _log "MCP connection cancelled." "system";; disconnect_tail
  | Failed e =>
      match exn_class_of e with
      | CancelledError => _log "MCP connection cancelled." "system";; disconnect_tail
      | _ => raise e
      end
  end.

(** The callbacks the event loop runs, one after the other. *)
Inductive job :=
| ConnectJob (server_script_path : string)    (* the task made by [connect_mcp] *)
| RunnerStep (t : nat) (sig : signal)         (* a step of lifecycle task [t] *)
| CompletionCallback (t : nat)                (* the done callback [connect] added to [t] *)
| DisconnectJob                               (* the task made by [disconnect_mcp] *)
| DisconnectWakeup (t : nat).                 (* [disconnect] resumes from [await t] *)

Record Loop := mkLoop {
  app_state : State;
  ready : list job;                           (* first in, first out *)
  done_callbacks : gmap nat (list job);       (* per task, in the order they were added *)
  next_task : nat
}.

(** [task.cancel()] on a pending task: a step already queued for it throws
    instead; otherwise the future it waits on is cancelled, which queues a step. *)
Fixpoint request_cancel (t : nat) (queue : list job) : list job :=
  match queue with
  | [] => [RunnerStep t (Throw (mkExn CancelledError EmptyString))]
  | RunnerStep t' sig :: rest =>
      if bool_decide (t' = t)
      then RunnerStep t (Throw (mkExn CancelledError EmptyString)) :: rest
      else RunnerStep t' sig :: request_cancel t rest
  | j :: rest => j :: request_cancel t rest
  end.

Definition set_task (t : nat) (st : task_state) (s : State) : State :=
  set_mcp (mcp_handler s) (<[t := st]> (tasks s)) s.

(** Run one callback of the ready queue (already taken off the queue). *)
Definition run_job (j : job) (l : Loop) : Loop :=
  match j with
  | ConnectJob server_script_path =>
      let t := next_task l in
      match connect server_script_path t (app_state l) with
      | (Returns true, s) =>
          mkLoop s (ready l ++ [RunnerStep t Resume])
                 (<[t := [CompletionCallback t]]> (done_callbacks l)) (S t)
      | (_, s) => mkLoop s (ready l) (done_callbacks l) (next_task l)
      end
  | RunnerStep t sig =>
      match tasks (app_state l) !! t with
      | Some (Pending pc) =>
          match _mcp_session_runner t pc sig (app_state l) with
          | (Suspended pc', s) =>
              mkLoop (set_task t (Pending pc') s) (ready l) (done_callbacks l) (next_task l)
          | (Completed r, s) =>
              mkLoop (set_task t (Done r) s)
                     (ready l ++ default [] (done_callbacks l !! t))
                     (delete t (done_callbacks l)) (next_task l)
          end
      | _ => l
      end
  | CompletionCallback t =>
      match tasks (app_state l) !! t with
      | Some (Done r) =>
          mkLoop (_handle_connection_task_completion r (app_state l)).2
                 (ready l) (done_callbacks l) (next_task l)
      | _ => l
      end
  | DisconnectJob =>
      match disconnect_begin (app_state l) with
      | (Returns (Some t), s) =>
          mkLoop s (request_cancel t (ready l))
                 (<[t := default [] (done_callbacks l !! t) ++ [DisconnectWakeup t]]>
                    (done_callbacks l))
                 (next_task l)
      | (_, s) => mkLoop (disconnect_tail s).2 (ready l) (done_callbacks l) (next_task l)
      end
  | DisconnectWakeup t =>
      match tasks (app_state l) !! t with
      | Some (Done r) =>
          mkLoop (disconnect_resume r (app_state l)).2 (ready l) (done_callbacks l) (next_task l)
      | _ => l
      end
  end.

(** Run the ready queue until it is empty, at most [fuel] callbacks. *)
Fixpoint run_loop (fuel : nat) (l : Loop) : Loop :=
  match fuel, ready l with
  | S fuel', j :: rest =>
      run_loop fuel' (run_job j (mkLoop (app_state l) rest (done_callbacks l) (next_task l)))
  | _, _ => l
  end.

(** Something outside the coroutines puts a callback on the queue: a click
    on a button, or the completion of the call a task waits for. *)
Definition enqueue (j : job) (l : Loop) : Loop :=
  mkLoop (app_state l) (ready l ++ [j]) (done_callbacks l) (next_task l).

(** How often the status ["Disconnected"] appears in a trace. *)
Definition is_disconnected_status (e : event) : bool :=
  match e with
  | UpdateStatus text => bool_decide (text = "Disconnected")
  | _ => false
  end.
Definition count_disconnected (tr : list event) : nat :=
  length (filter (fun e => is_disconnected_status e = true) tr).

End Model.

(** ** Reading a trace *)

(** The events the user sees: output lines and status texts. *)
Definition is_shown (e : event) : bool :=
  match e with
  | UpdateOutput _ _ | UpdateStatus _ => true
  | _ => false
  end.
Definition shown (tr : list event) : list event :=
  filter (fun e => is_shown e = true) tr.

(** The completion calls of a trace. *)
Definition is_completion_call (e : event) : bool :=
  match e with
  | CompletionsCreate _ => true
  | _ => false
  end.
Definition completion_calls (tr : list event) : nat :=
  length (filter (fun e => is_completion_call e = true) tr).

(** ** Example environments

    Concrete oracles, used to run the model on concrete inputs. *)

(** A serializer for the examples: Python's separators, no escaping (the
    strings of the examples need none), and the indented form printed like
    the compact one. *)
Fixpoint example_dumps (j : json) : string :=
  match j with
  | JNull => "null"
  | JBool true => "true"
  | JBool false => "false"
  | JNum n => pretty n
  | JStr s => DQ +:+ s +:+ DQ
  | JList l => "[" +:+ String.concat ", " (map example_dumps l) +:+ "]"
  | JDict d =>
      "{" +:+ String.concat ", "
                (map (fun kv => match kv with
                                | (k, v) => DQ +:+ k +:+ DQ +:+ ": " +:+ example_dumps v
                                end) d)
          +:+ "}"
  end.

(** Two thousand opening brackets and as many closing ones: JSON text that
    is nested deeper than the parser recurses. *)
Definition example_deep_arguments : string :=
  Nat.iter 2000 (String "["%char) (Nat.iter 2000 (String "]"%char) EmptyString).

(** [json.loads] on the texts of the examples: the empty object [{}], the
    deeply nested text, on which it raises [RecursionError], and texts that
    are not JSON. *)
Definition example_loads (s : string) : outcome json :=
  if bool_decide (s = "{}") then Returns (JDict [])
  else if bool_decide (s = example_deep_arguments)
  then Raises (mkExn RecursionError
                 "maximum recursion depth exceeded while decoding a JSON array from a unicode string")
  else Raises (mkExn JSONDecodeError "Expecting value: line 1 column 1 (char 0)").

(** An environment with the mcp package as it is (no [JsonContent] in
    [mcp.types]), in which nothing else runs while a coroutine awaits. *)
Definition example_env
    (create : nat -> completion_request -> outcome (list response))
    (tools : outcome (list Tool))
    (call : string -> json -> outcome (list content_item)) : Oracle :=
  mkOracle example_dumps example_dumps example_loads false
           (fun e => "Traceback (most recent call last): " +:+ exn_str e)
           (fun key url => Returns (mkClient key url))
           create (fun _ => tools) (fun _ => call) (fun _ s => no_interference s).

(** A state of the running application: client set up, no MCP connection. *)
Definition example_state : State :=
  mkState [system_message] (Some (mkClient "key" "https://example.invalid"))
          (MCPHandler_init (Some bound_handle_handler_update)) "gpt" ∅ [] 0.

(** The same with a live MCP session (task 0 idles in its keep-alive loop). *)
Definition example_connected_state : State :=
  mkState [system_message] (Some (mkClient "key" "https://example.invalid"))
          (mkMCPHandler (Some (mkSession 0 false)) (Some 0%nat) (Some bound_handle_handler_update))
          "gpt" {[ 0%nat := Pending Idle ]} [] 0.

(** The application right after start, with an idle event loop. *)
Definition example_loop : Loop := mkLoop example_state [] ∅ 0.

(** The application with an established MCP connection: lifecycle task 0
    idles, its done callback is registered, the event loop is idle. *)
Definition example_connected_loop : Loop :=
  mkLoop example_connected_state [] {[ 0%nat := [CompletionCallback 0] ]} 1.

(** An assistant answer that asks for one call of [search]. *)
Definition example_tool_request (k : nat) : response :=
  ChatCompletionMessage "assistant" (FieldSet None)
    (FieldSet (Some [mkToolCall ("call_" +:+ pretty k) "search" "{}"])).

(** A final assistant answer. *)
Definition example_final_answer : response :=
  ChatCompletionMessage "assistant" (FieldSet (Some "Done.")) Unset.

(** The model asks for a tool four times and answers on its fifth call;
    no MCP server is involved. *)
Definition example_four_tool_rounds : Oracle :=
  example_env (fun k _ => if bool_decide (k < 4)
                          then Returns [example_tool_request k]
                          else Returns [example_final_answer])
              (Returns []) (fun _ _ => Returns []).

(** The model answers at once, without asking for a tool. *)
Definition example_direct_answer : Oracle :=
  example_env (fun _ _ => Returns [example_final_answer]) (Returns []) (fun _ _ => Returns []).

(** The completion endpoint is down; so is the tool. *)
Definition example_outage : Oracle :=
  example_env (fun _ _ => Raises (mkExn APIError "Connection error."))
              (Raises (mkExn ClosedResourceError EmptyString))
              (fun _ _ => Raises (mkExn OtherException "tool crashed")).

(** The state at the start of a turn: the user has just sent a message. *)
Definition example_turn_state : State :=
  (send_message_to_llm "What is the weather in Paris?" example_state).2.

(** The same with a live MCP session. *)
Definition example_connected_turn_state : State :=
  (send_message_to_llm "What is the weather in Paris?" example_connected_state).2.

(** The tool answers with a text and a picture. *)
Definition example_picture : Oracle :=
  example_env (fun _ _ => Returns [example_final_answer])
              (Returns [mkTool "search" None None])
              (fun _ _ => Returns [TextContent "A map of Paris."; ImageContent None]).

(** The user sends [U] while a coroutine is suspended: what
    [send_message_to_llm] does with a client at hand. *)
Definition example_user_sends (U : string) (s : State) : Interference :=
  mkInterference [user_message U] (llm s) (deployment s) (mcp_handler s) (tasks s)
                 [UpdateOutput U "user"; UpdateStatus "Processing...";
                  CreateTask "_process_llm_interaction"].

(** [env] with other callbacks running at its awaits. *)
Definition with_other_tasks (other : nat -> State -> Interference) (env : Oracle) : Oracle :=
  mkOracle (json_dumps env) (json_dumps_indent env) (json_loads env) (has_JsonContent env)
           (format_exc env) (new_client env) (completions_create env)
           (session_list_tools env) (session_call_tool env) other.

(** An assistant answer with three requests: one that can be served, one
    whose arguments are not JSON, one for a tool that fails. *)
Definition example_three_requests : response :=
  ChatCompletionMessage "assistant" (FieldSet None)
    (FieldSet (Some [mkToolCall "call_0" "search" "{}";
                     mkToolCall "call_1" "search" "not json";
                     mkToolCall "call_2" "crash" "{}"])).

(** The model makes the three requests, then answers; [search] gives a
    text, every other tool fails; the user sends a message whenever the turn
    waits. *)
Definition example_busy_turn : Oracle :=
  with_other_tasks (fun _ => example_user_sends "And in Rome?")
    (example_env (fun k _ => if bool_decide (k < 2)
                             then Returns [example_three_requests]
                             else Returns [example_final_answer])
                 (Returns [mkTool "search" None None])
                 (fun name _ => if bool_decide (name = "search")
                                then Returns [TextContent "Sunny."]
                                else Raises (mkExn OtherException "tool crashed"))).

(** An assistant answer with two requests, the first with deeply nested
    arguments. *)
Definition example_deep_request : response :=
  ChatCompletionMessage "assistant" (FieldSet None)
    (FieldSet (Some [mkToolCall "call_0" "search" example_deep_arguments;
                     mkToolCall "call_1" "search" "{}"])).

(** A connected turn in which the model makes these two requests. *)
Definition example_deep_turn : Oracle :=
  example_env (fun k _ => if bool_decide (k < 2)
                          then Returns [example_deep_request]
                          else Returns [example_final_answer])
              (Returns [mkTool "search" None None])
              (fun _ _ => Returns [TextContent "Sunny."]).

(** A session of the application: it starts, connects to the MCP server
    (the lifecycle task runs until it has stored the session), gets empty
    settings, refuses a message for want of a client, gets good settings and
    takes a message ([example_sent]); then it runs the turn for it, in which
    the model asks for tools and the user sends another message whenever the
    turn waits ([example_session]). *)
Definition example_sent : State :=
  let start :=
    (AppController_init example_busy_turn (Some "key") (Some "https://example.invalid")
                        "gpt").2 in
  let connected :=
    app_state
      (run_job example_busy_turn (RunnerStep 0 Resume)
         (run_job example_busy_turn (RunnerStep 0 Resume)
            (run_job example_busy_turn (ConnectJob "server.py")
               (mkLoop start [] ∅ 0)))) in
  let without_client :=
    (update_azure_config example_busy_turn EmptyString "https://example.invalid" "gpt"
                         connected).2 in
  let refused := (send_message_to_llm "Anyone there?" without_client).2 in
  let with_client :=
    (update_azure_config example_busy_turn "key" "https://example.invalid" "gpt"
                         refused).2 in
  (send_message_to_llm "What is the weather in Paris?" with_client).2.
Definition example_session : State :=
  (_process_llm_interaction example_busy_turn example_sent).2.

(** The event loop after [connect_mcp]: the lifecycle task has started the
    server and now waits for the handshake to complete. *)
Definition example_handshake_loop : Loop :=
  let env := example_env (fun _ _ => Returns []) (Returns []) (fun _ _ => Returns []) in
  run_loop env 8
    (enqueue (RunnerStep 0 Resume)
       (run_loop env 8 (enqueue (ConnectJob "server.py") example_loop))).

(** ** The states the application can be in *)

(** The states in which a coroutine was suspended while it added the events
    [es] to the trace [tr]: one for each [await] it reached. *)
Fixpoint suspended_states (tr : list event) (es : list event) : list State :=
  match es with
  | [] => []
  | e :: es' =>
      match e with
      | Yields v => suspended_state (tr ++ [e]) v :: suspended_states (tr ++ [e]) es'
      | _ => suspended_states (tr ++ [e]) es'
      end
  end.

(** The application starts in the state [AppController.__init__] builds,
    and from then on the buttons of the window and the callbacks of the
    event loop run the operations below, each with whatever the outside
    answers. A turn (and [list_tools], started by its button) is not one
    step of the event loop: it is suspended at each [await], and the
    callbacks of the loop run on the state it is suspended in. So these
    states are states of the application as well, the operations below run
    from them, and what they do there is the interference the suspended
    coroutine goes on with ([await_io]). *)
Inductive reachable : State -> Prop :=
| reachable_init env api_key endpoint gui_deployment :
    reachable (AppController_init env api_key endpoint gui_deployment).2
| reachable_send_message s user_input :
    reachable s -> reachable (send_message_to_llm user_input s).2
| reachable_process env s :
    reachable s -> reachable (_process_llm_interaction env s).2
| reachable_update_config env s api_key endpoint gui_deployment :
    reachable s -> reachable (update_azure_config env api_key endpoint gui_deployment s).2
| reachable_list_tools env s :
    reachable s -> reachable (list_mcp_tools env s).2
| reachable_job env j l :
    reachable (app_state l) -> reachable (app_state (run_job env j l))
| reachable_turn_suspended env s s' :
    reachable s ->
    s' ∈ suspended_states (trace s)
           (drop (length (trace s)) (trace (_process_llm_interaction env s).2)) ->
    reachable s'
| reachable_list_tools_suspended env s s' :
    reachable s ->
    s' ∈ suspended_states (trace s)
           (drop (length (trace s)) (trace (list_mcp_tools env s).2)) ->
    reachable s'.

(** The state in which the turn of [example_session] waits for its first
    tool call. *)
Definition example_waiting : State :=
  default example_sent
    (suspended_states (trace example_sent)
       (drop (length (trace example_sent)) (trace example_session)) !! 1%nat).

(** ** Relations between the state before and after an operation *)

(** Every run of [m] takes a state to one related to it by [R]. *)
Definition relates {A} (R : State -> State -> Prop) (m : M A) : Prop :=
  forall s, R s (m s).2.

(** A relation that holds whenever the history is left as it was and no
    completion call is made. *)
Class Frame (R : State -> State -> Prop) : Prop :=
  frame : forall s s',
    messages s' = messages s ->
    completion_calls (trace s') = completion_calls (trace s) ->
    R s s'.

(** A relation that holds whenever the history is only appended to and no
    completion call is made: what an [await] does while the other callbacks
    of the loop run. *)
Class AwaitFrame (R : State -> State -> Prop) : Prop :=
  await_frame : forall s s',
    messages s `prefix_of` messages s' ->
    completion_calls (trace s') = completion_calls (trace s) ->
    R s s'.

(** A relation that looks at the history only. *)
Class HistoryOnly (R : State -> State -> Prop) : Prop :=
  history_only : forall s s', messages s' = messages s -> R s s'.

(** The history is left as it was. *)
Definition same_history (s s' : State) : Prop := messages s' = messages s.

(** The history is only appended to. *)
Definition history_grows (s s' : State) : Prop := messages s `prefix_of` messages s'.

(** No completion call is made. *)
Definition same_calls (s s' : State) : Prop :=
  completion_calls (trace s') = completion_calls (trace s).

(** At most [n] completion calls are made. *)
Definition calls_le (n : nat) (s s' : State) : Prop :=
  completion_calls (trace s') <= completion_calls (trace s) + n.

(** ** Answers to tool calls *)






(** The calls made to the MCP session fail with exceptions only: the turn
    itself is never cancelled while it waits for a tool. *)
Definition tool_failures_are_exceptions (env : Oracle) : Prop :=
  forall k name arguments e,
    session_call_tool env k name arguments = Raises e -> is_Exception e = true.

(** ** What the results of the handlers look like *)

(** [isinstance(item, types.TextContent)] *)
Definition is_TextContent (item : content_item) : bool :=
  match item with TextContent _ => true | _ => false end.

(** The dict [call_tool] makes of a text item. *)
Definition text_dict (text : string) : json :=
  JDict [("type", JStr "text"); ("text", JStr text)].

(** The events of a trace that reach the completion endpoint or the MCP server. *)
Definition network_events (tr : list event) : list event :=
  filter (fun e => is_network e = true) tr.

(** The suspension points inside the [try] block of [_mcp_session_runner]. *)
Definition is_started (pc : runner_pc) : bool :=
  match pc with
  | NotStarted _ => false
  | _ => true
  end.

(** A line of the output pane written in the role ["system"]. *)
Definition is_system_line (e : event) : bool :=
  match e with
  | UpdateOutput _ role => bool_decide (role = "system")
  | _ => false
  end.

(** The call lifecycle task [t] waits for completes, and the loop resumes the task. *)
Definition resumed (env : Oracle) (t : nat) (l : Loop) : Loop :=
  run_loop env 1 (enqueue (RunnerStep t Resume) l).

(** ** The requests of a turn *)

(** The [messages] argument of a completion request. *)
Definition request_messages (req : completion_request) : list message :=
  match req with
  | CreateWithTools _ msgs _ | CreatePlain _ msgs => msgs
  end.

(** The completion requests of a trace, in the order they were sent. *)
Definition requests (tr : list event) : list completion_request :=
  omap (fun e => match e with CompletionsCreate req => Some req | _ => None end) tr.

(** The histories in which the coroutines of a trace were suspended, in order. *)
Definition snapshots (tr : list event) : list (list message) :=
  omap (fun e => match e with Yields v => Some (found_messages v) | _ => None end) tr.

(** The history an event carries: the one sent with a completion request,
    or the one a coroutine was suspended in. *)
Definition observed_history (e : event) : option (list message) :=
  match e with
  | CompletionsCreate req => Some (request_messages req)
  | Yields v => Some (found_messages v)
  | _ => None
  end.

(** From [s] to [s'] the history and the trace only grew, and every history
    sent with a completion request or left to the other callbacks at an
    [await] in between extends the one of [s] and is extended by the one of
    [s']. *)
Definition carries_history (s s' : State) : Prop :=
  messages s `prefix_of` messages s'
  /\ exists es,
       trace s' = trace s ++ es
       /\ Forall (fun h => messages s `prefix_of` h /\ h `prefix_of` messages s')
                 (omap observed_history es).

(** * Properties *)

Section Properties.

Variable env : Oracle.

(** ** The tool session manager *)

(** C6: [is_connected] answers true exactly when the session handle is
    present and the lifecycle task exists and is not done; so it answers
    false for a finished task even while the session handle is still set. *)
Theorem is_connected_iff (ts : gmap nat task_state) (self : MCPHandler) :
  (is_connected ts self = true <->
     is_Some (session self) /\
     exists t, _connection_task self = Some t /\ task_done ts t = false)
  /\ (forall sess t, session self = Some sess -> _connection_task self = Some t ->
        task_done ts t = true -> is_connected ts self = false).
Proof.
  unfold is_connected. split.
  - destruct (session self) as [sess|], (_connection_task self) as [t|]; simpl.
    + rewrite negb_true_iff. split.
      * intros H. split; [by eexists|]. by exists t.
      * by intros [_ (t' & [= <-] & H)].
    + split; [done|]. by intros [_ (t' & [=] & _)].
    + split; [done|]. by intros [[? [=]] _].
    + split; [done|]. by intros [[? [=]] _].
  - intros sess t -> -> Hdone. by rewrite Hdone.
Qed.

Lemma serialize_content_raises (content : list content_item) (e : exn) :
  serialize_content env content = Raises e -> is_Exception e = true.
Proof.
  induction content as [|item rest IH]; simpl; [done|].
  destruct (serialize_item env item) as [j|e'] eqn:Hitem.
  - destruct (serialize_content env rest) as [js|e'']; [done|].
    intros [= <-]. by apply IH.
  - intros [= <-]. unfold serialize_item in Hitem.
    destruct item as [text|json_value|[format|]|repr], (has_JsonContent env);
      by simplify_eq.
Qed.

(** What a connected [call_tool] answers, by the answer of the session. *)
Lemma call_tool_connected (s : State) (name : string) (arguments : json) :
  is_connected (tasks s) (mcp_handler s) = true ->
  (call_tool env name arguments s).1
  = match session_call_tool env (clock s) name arguments with
    | Returns content =>
        match serialize_content env content with
        | Returns serializable_content => Returns (JList serializable_content)
        | Raises e => Returns (error_payload (exn_str e))
        end
    | Raises e => if is_Exception e then Returns (error_payload (exn_str e)) else Raises e
    end.
Proof.
  intros Hc. unfold call_tool, mbind, M_bind, get_state. rewrite Hc. simpl.
  unfold try_except, await_io, lift_outcome, mbind, M_bind. simpl.
  destruct (session_call_tool env (clock s) name arguments) as [content|e]; simpl.
  - destruct (serialize_content env content) as [items|e] eqn:Hitems; simpl; [done|].
    rewrite (serialize_content_raises _ _ Hitems). unfold _log. simpl.
    by repeat (destruct (_update_callback _); simpl).
  - destruct (is_Exception e); [|done]. unfold _log. simpl.
    by repeat (destruct (_update_callback _); simpl).
Qed.

(** C4: when the handler is not connected, [call_tool] returns the payload
    [{"error": "Not connected to MCP server."}] and [list_tools] returns
    [None], neither of them raising. A connected [call_tool] turns every
    failure of the attempted call into a payload: when the call to the
    session fails with an exception [e], and when the result of the session
    cannot be made serializable (an exception [e] raised while its items are
    gone through), it returns [{"error": str(e)}]. Nothing that [call_tool]
    raises is an exception: the one thing it lets through is a cancellation
    that comes out of the awaited call. *)
Theorem call_tool_list_tools_never_raise (s : State) (name : string) (arguments : json)
    (log : bool) :
  (is_connected (tasks s) (mcp_handler s) = false ->
     (call_tool env name arguments s).1 = Returns (error_payload "Not connected to MCP server.")
     /\ (list_tools env log s).1 = Returns None)
  /\ (is_connected (tasks s) (mcp_handler s) = true ->
      (forall e,
         session_call_tool env (clock s) name arguments = Raises e ->
         is_Exception e = true ->
         (call_tool env name arguments s).1 = Returns (error_payload (exn_str e)))
      /\ (forall content e,
            session_call_tool env (clock s) name arguments = Returns content ->
            serialize_content env content = Raises e ->
            (call_tool env name arguments s).1 = Returns (error_payload (exn_str e))))
  /\ (forall e,
        (call_tool env name arguments s).1 = Raises e ->
        is_Exception e = false
        /\ session_call_tool env (clock s) name arguments = Raises e).
Proof.
  split; [|split].
  - intros Hc. unfold call_tool, list_tools, _log, mbind, M_bind, get_state.
    rewrite Hc. simpl.
    by destruct (_update_callback (mcp_handler s)).
  - intros Hc. rewrite (call_tool_connected _ _ _ Hc). split.
    + intros e -> ->. done.
    + intros content e -> ->. done.
  - intros e. destruct (is_connected (tasks s) (mcp_handler s)) eqn:Hc.
    + rewrite (call_tool_connected _ _ _ Hc).
      destruct (session_call_tool env (clock s) name arguments) as [content|e'].
      * by destruct (serialize_content env content).
      * destruct (is_Exception e') eqn:He'; [done|]. by intros [= <-].
    + unfold call_tool, _log, mbind, M_bind, get_state. rewrite Hc. simpl.
      by destruct (_update_callback (mcp_handler s)).
Qed.

(** ** The completion client *)

(** C5: with the client initialized, a failure [e] of the completion call
    is not propagated: [get_completion] returns an assistant-role message
    whose content describes the error and whose [tool_calls] is [None]. *)
Theorem get_completion_failure_is_message (s : State) (deployment : string)
    (msgs : list message) (tools : option (list json)) (e : exn) :
  is_initialized s = true ->
  completions_create env (clock s) (completion_request_of deployment msgs tools) = Raises e ->
  is_Exception e = true ->
  (get_completion env deployment msgs tools s).1
  = Returns (SimpleNamespace "assistant"
               (Some ("Error communicating with LLM: " +:+ exn_str e)) None).
Proof.
  unfold is_initialized. intros Hinit Hcreate Hexn.
  unfold get_completion, mbind, M_bind, get_state.
  destruct (llm s) as [client|]; [|done].
  unfold try_except, blocking_io, mbind, M_bind. simpl.
  by rewrite Hcreate, Hexn.
Qed.

(** C8: a descriptor whose [inputSchema] is missing or is not a dict is
    formatted with [{"type": "object", "properties": {}}] under the key
    [parameters]; and an empty list of descriptors gives the empty list. *)
Theorem format_tools_for_openai_default_schema :
  format_tools_for_openai (Some []) = []
  /\ forall (mcp_tools : list Tool) (i : nat) (tool : Tool),
       mcp_tools !! i = Some tool ->
       match inputSchema tool with
       | None => True
       | Some v => is_dict v = false
       end ->
       format_tools_for_openai (Some mcp_tools) !! i
       = Some (JDict [("type", JStr "function");
                      ("function",
                       JDict [("name", JStr (tool_name tool));
                              ("description", json_of_option_str (tool_description tool));
                              ("parameters",
                               JDict [("type", JStr "object"); ("properties", JDict [])])])]).
Proof.
  split; [done|].
  intros mcp_tools i tool Hi Hschema.
  assert (format_tools_for_openai (Some mcp_tools) = map format_tool mcp_tools) as ->
    by (by destruct mcp_tools).
  rewrite list_lookup_fmap || (change (map format_tool mcp_tools) with (format_tool <$> mcp_tools);
                               rewrite list_lookup_fmap).
  rewrite Hi. simpl. f_equal. unfold format_tool.
  destruct (inputSchema tool) as [v|]; simpl; [|done].
  by rewrite Hschema.
Qed.

(** ** The conversation orchestrator *)

(** C10: an empty user input leaves everything as it was: the history, the
    trace of what was shown and sent, and no task is created. *)
Theorem send_message_to_llm_empty_is_noop (s : State) (user_input : string) :
  truthy_str user_input = false ->
  send_message_to_llm user_input s = (Returns tt, s).
Proof.
  intros Hfalsy. unfold send_message_to_llm. by rewrite Hfalsy.
Qed.

Lemma last_snoc_message (l : list message) (m : message) : last (l ++ [m]) = Some m.
Proof. by rewrite last_snoc. Qed.

Lemma user_message_role (U : string) : user_message U !! "role" = Some (VStr "user").
Proof. unfold user_message. by rewrite lookup_insert_eq. Qed.

(** C2: for a non-empty input [U], [send_message_to_llm] returns without
    any network event. With the client initialized the history is the old
    one followed by the one user message, already in place when the task
    that talks to the network is created; with the client not initialized
    the history is the old one again, an error line is shown, and no task
    is created. *)
Theorem send_message_to_llm_preflight (s : State) (U : string) :
  truthy_str U = true ->
  (send_message_to_llm U s).1 = Returns tt
  /\ (if is_initialized s
      then messages (send_message_to_llm U s).2 = messages s ++ [user_message U]
           /\ trace (send_message_to_llm U s).2
              = trace s ++ [UpdateOutput U "user"; UpdateStatus "Processing...";
                            CreateTask "_process_llm_interaction"]
      else messages (send_message_to_llm U s).2 = messages s
           /\ trace (send_message_to_llm U s).2
              = trace s ++ [UpdateOutput U "user";
                            UpdateOutput "Azure OpenAI client is not initialized. Please check settings."
                                         "system"])
  /\ Forall (fun e => is_network e = false)
            (drop (length (trace s)) (trace (send_message_to_llm U s).2))
  /\ clock (send_message_to_llm U s).2 = clock s.
Proof.
  intros Htruthy. unfold send_message_to_llm. rewrite Htruthy. simpl.
  unfold mbind, M_bind, emit, modify, get_state, is_initialized. simpl.
  destruct (llm s) as [client|] eqn:Hllm; simpl.
  - rewrite <- !app_assoc. simpl. rewrite drop_app_length.
    repeat split; by repeat constructor.
  - rewrite last_snoc_message, user_message_role. simpl.
    rewrite removelast_last, <- !app_assoc. simpl. rewrite drop_app_length.
    repeat split; by repeat constructor.
Qed.

Lemma completion_calls_quiet (tr es : list event) :
  Forall (fun e => is_completion_call e = false) es ->
  completion_calls (tr ++ es) = completion_calls tr.
Proof.
  intros Hquiet. unfold completion_calls. rewrite filter_app, length_app.
  assert (filter (fun e => is_completion_call e = true) es = []) as ->; [|simpl; lia].
  induction Hquiet as [|e es He _ IH]; [done|].
  rewrite filter_cons_False by congruence. exact IH.
Qed.

(** *** What an operation does to the history *)

Section Relates.

Context (R : State -> State -> Prop) `{!PreOrder R, !Frame R}.

Lemma relates_ret {A} (a : A) : relates R (mret a : M A).
Proof. intros s. reflexivity. Qed.

Lemma relates_raise {A} (e : exn) : relates R (raise e : M A).
Proof. intros s. reflexivity. Qed.

Lemma relates_get_state : relates R get_state.
Proof. intros s. reflexivity. Qed.

Lemma relates_bind {A B} (m : M A) (f : A -> M B) :
  relates R m -> (forall a, relates R (f a)) -> relates R (m ≫= f).
Proof.
  intros Hm Hf s. unfold mbind, M_bind. specialize (Hm s).
  destruct (m s) as [[a|e] s1]; simpl in *; [|done].
  etransitivity; [exact Hm|apply Hf].
Qed.

Lemma relates_try_except {A} (body : M A) (handler : exn -> M A) :
  relates R body -> (forall e, relates R (handler e)) -> relates R (try_except body handler).
Proof.
  intros Hb Hh s. unfold try_except. specialize (Hb s).
  destruct (body s) as [[a|e] s1]; simpl in *; [done|].
  destruct (is_Exception e); [|done].
  etransitivity; [exact Hb|apply Hh].
Qed.

Lemma relates_try_finally {A} (body : M A) (final : M unit) :
  relates R body -> relates R final -> relates R (try_finally body final).
Proof.
  intros Hb Hf s. unfold try_finally. specialize (Hb s).
  destruct (body s) as [r s1]; simpl in *. specialize (Hf s1).
  destruct (final s1) as [[u|e] s2]; simpl in *; by etransitivity.
Qed.

Lemma relates_for_each {A} (xs : list A) (body : A -> M unit) :
  (forall x, relates R (body x)) -> relates R (for_each xs body).
Proof.
  intros Hbody. induction xs as [|x xs IH]; simpl.
  - apply relates_ret.
  - apply relates_bind; [apply Hbody|by intros _].
Qed.

Lemma relates_modify (f : State -> State) :
  (forall s, R s (f s)) -> relates R (modify f).
Proof. intros Hf s. apply Hf. Qed.

Lemma relates_emit (e : event) :
  is_completion_call e = false -> relates R (emit e).
Proof.
  intros He s. apply frame; [done|]. simpl.
  apply completion_calls_quiet. by constructor.
Qed.

Lemma relates_log (message role : string) : relates R (_log message role).
Proof.
  intros s. unfold _log. destruct (_update_callback _) as [[]|]; simpl.
  - apply frame; [done|]. simpl. apply completion_calls_quiet.
    unfold _handle_handler_update. case_bool_decide; by repeat constructor.
  - apply frame; [done|]. simpl. apply completion_calls_quiet. by repeat constructor.
Qed.

Lemma relates_call_update_callback (message role : string) :
  relates R (call_update_callback message role).
Proof.
  intros s. unfold call_update_callback. destruct (_update_callback _) as [[]|]; simpl.
  - apply frame; [done|]. simpl. apply completion_calls_quiet.
    unfold _handle_handler_update. case_bool_decide; by repeat constructor.
  - reflexivity.
Qed.

Lemma completion_calls_elsewhere (es : list event) :
  Forall (fun e => is_completion_call e = false) (Elsewhere <$> es).
Proof. induction es; by constructor. Qed.

Lemma relates_await_io `{!AwaitFrame R} {A} (e : event) (answer : nat -> outcome A) :
  is_completion_call e = false -> relates R (await_io env e answer).
Proof.
  intros He s. unfold await_io. apply await_frame; simpl.
  - by apply prefix_app_r.
  - rewrite completion_calls_quiet by apply completion_calls_elsewhere.
    apply completion_calls_quiet. by repeat constructor.
Qed.

Lemma relates_lift_outcome {A} (o : outcome A) : relates R (lift_outcome o).
Proof. intros s. reflexivity. Qed.

Lemma relates_blocking_io `{!HistoryOnly R} {A} (e : event) (answer : nat -> outcome A) :
  relates R (blocking_io e answer).
Proof. intros s. by apply history_only. Qed.

Lemma relates_set_mcp (f : State -> MCPHandler) (g : State -> gmap nat task_state) :
  relates R (modify (fun s => set_mcp (f s) (g s) s)).
Proof. intros s. by apply frame. Qed.

Lemma relates_set_llm (c : option AzureOpenAI) : relates R (modify (set_llm c)).
Proof. intros s. by apply frame. Qed.

End Relates.

#[local] Instance same_history_preorder : PreOrder same_history.
Proof.
  split; [by intros s|]. intros s1 s2 s3 H12 H23. unfold same_history in *. congruence.
Qed.

#[local] Instance same_history_only : HistoryOnly same_history.
Proof. by intros s s' H. Qed.

#[local] Instance history_grows_preorder : PreOrder history_grows.
Proof.
  split.
  - intros s. unfold history_grows. reflexivity.
  - intros s1 s2 s3 H12 H23. unfold history_grows in *. by etransitivity.
Qed.

#[local] Instance history_grows_only : HistoryOnly history_grows.
Proof. intros s s' H. unfold history_grows. by rewrite H. Qed.

#[local] Instance history_only_frame (R : State -> State -> Prop) `{!HistoryOnly R} :
  Frame R.
Proof. intros s s' H _. by apply history_only. Qed.

#[local] Instance history_grows_await : AwaitFrame history_grows.
Proof. by intros s s' H _. Qed.

Ltac relates_leaf :=
  first
    [ apply relates_ret | apply relates_raise | apply relates_get_state
    | apply relates_lift_outcome
    | apply relates_emit; [apply _ .. | reflexivity]
    | apply relates_log | apply relates_call_update_callback
    | apply relates_await_io; [apply _ .. | reflexivity]
    | apply relates_set_mcp | apply relates_set_llm ];
  try apply _.

Ltac relates_step :=
  first
    [ relates_leaf
    | apply relates_bind; [apply _ .. | idtac | intros ?]
    | apply relates_try_except; [apply _ .. | idtac | intros ?]
    | apply relates_try_finally; [apply _ .. | idtac | idtac]
    | apply relates_for_each; [apply _ .. | intros ?]
    | progress case_match ].

Section Operations.

Context (R : State -> State -> Prop) `{!PreOrder R, !Frame R, !AwaitFrame R}.

Lemma relates_list_tools (log : bool) : relates R (list_tools env log).
Proof. unfold list_tools. repeat relates_step. Qed.

Lemma relates_call_tool (name : string) (arguments : json) :
  relates R (call_tool env name arguments).
Proof. unfold call_tool. repeat relates_step. Qed.

Lemma relates_get_completion `{!HistoryOnly R} (deployment : string)
    (msgs : list message) (tools : option (list json)) :
  relates R (get_completion env deployment msgs tools).
Proof.
  unfold get_completion.
  repeat first [apply relates_blocking_io; apply _ | relates_step].
Qed.

Lemma relates_initialize (api_key endpoint : option string) :
  relates R (initialize env api_key endpoint).
Proof. unfold initialize. repeat relates_step. Qed.

Lemma relates_refresh_tool_catalog : relates R (refresh_tool_catalog env).
Proof.
  unfold refresh_tool_catalog.
  repeat first [apply relates_list_tools | relates_step].
Qed.

End Operations.

(** *** The conversation loop only appends to the history *)

Lemma history_grows_append (m : State -> message) :
  relates history_grows (modify (fun s => set_messages (fun l => l ++ [m s]) s)).
Proof. intros s. unfold history_grows. simpl. by apply prefix_app_r. Qed.

Lemma history_grows_append_const (m : message) :
  relates history_grows (modify (set_messages (fun l => l ++ [m]))).
Proof. apply (history_grows_append (fun _ => m)). Qed.

Ltac grows_step :=
  first
    [ apply history_grows_append_const
    | apply relates_call_tool; apply _
    | apply relates_get_completion; apply _
    | apply relates_refresh_tool_catalog; apply _
    | relates_step ].

Lemma history_grows_run_tool_call (tc : tool_call) :
  relates history_grows (run_tool_call env tc).
Proof. unfold run_tool_call. repeat grows_step. Qed.

Lemma history_grows_execute_tool_calls (tool_calls : list tool_call) :
  relates history_grows (execute_tool_calls env tool_calls).
Proof.
  unfold execute_tool_calls.
  repeat first [apply history_grows_run_tool_call | grows_step].
Qed.

Lemma history_grows_append_assistant_message (response_dump : message)
    (content : option string) :
  relates history_grows (append_assistant_message response_dump content).
Proof. unfold append_assistant_message. repeat grows_step. Qed.

Lemma history_grows_loop_body (defs : list json) (iterations : nat) :
  relates history_grows (loop_body env defs iterations).
Proof.
  unfold loop_body.
  repeat first [ apply history_grows_execute_tool_calls
               | apply history_grows_append_assistant_message
               | grows_step ].
Qed.

Lemma history_grows_while_loop (fuel : nat) (defs : list json) (iterations : nat) :
  relates history_grows (while_loop env fuel defs iterations).
Proof.
  revert iterations. induction fuel as [|fuel IH]; intros iterations; simpl.
  - repeat grows_step.
  - case_bool_decide; [|by repeat grows_step].
    apply relates_bind; [apply _|apply history_grows_loop_body|].
    intros [|]; [apply IH|by repeat grows_step].
Qed.

Lemma history_grows_process : relates history_grows (_process_llm_interaction env).
Proof.
  unfold _process_llm_interaction, run_iterations.
  repeat first [apply history_grows_while_loop | grows_step].
Qed.

Lemma history_grows_send_message (user_input : string) :
  relates history_grows (send_message_to_llm user_input).
Proof.
  intros s. unfold history_grows, send_message_to_llm.
  destruct (truthy_str user_input); simpl; [|done].
  unfold mbind, M_bind, emit, modify, get_state, is_initialized. simpl.
  destruct (llm s); simpl.
  - by apply prefix_app_r.
  - rewrite last_snoc_message, user_message_role. simpl. by rewrite removelast_last.
Qed.

(** *** Everything else leaves the history alone *)

Ltac same_history_step :=
  first
    [ relates_step
    | apply relates_modify; [apply _ .. | intros ?; by apply frame] ].

Lemma same_history_initialize_llm_from_config (api_key endpoint : option string) :
  relates same_history (_initialize_llm_from_config env api_key endpoint).
Proof.
  unfold _initialize_llm_from_config.
  repeat first [apply relates_initialize; apply _ | same_history_step].
Qed.

Lemma same_history_update_azure_config (api_key endpoint gui_deployment : string) :
  relates same_history (update_azure_config env api_key endpoint gui_deployment).
Proof.
  unfold update_azure_config.
  repeat first [apply relates_initialize; apply _ | same_history_step].
Qed.

Lemma history_grows_list_mcp_tools : relates history_grows (list_mcp_tools env).
Proof.
  unfold list_mcp_tools.
  repeat first [apply relates_list_tools; apply _ | relates_step].
Qed.

Lemma same_history_clear_connection : relates same_history clear_connection.
Proof. unfold clear_connection. repeat same_history_step. Qed.

Lemma same_history_connect (server_script_path : string) (t : nat) :
  relates same_history (connect server_script_path t).
Proof. unfold connect. repeat same_history_step. Qed.

Lemma same_history_runner_finally : relates same_history runner_finally.
Proof.
  unfold runner_finally.
  repeat first [apply same_history_clear_connection | same_history_step].
Qed.

Lemma same_history_runner (t : nat) (pc : runner_pc) (sig : signal) (s : State) :
  same_history s (_mcp_session_runner env t pc sig s).2.
Proof.
  assert (relates same_history (runner_segment t pc)) as Hseg
    by (unfold runner_segment; repeat same_history_step).
  assert (forall e, relates same_history (try_finally (runner_except env e) runner_finally))
    as Hend.
  { intros e. unfold runner_except.
    repeat first [apply same_history_runner_finally | same_history_step]. }
  assert (forall (m : M runner_pc), relates same_history m ->
            same_history s (match m s with
                            | (Returns pc', s') => (Suspended pc', s')
                            | (Raises e, s') =>
                                match try_finally (runner_except env e) runner_finally s' with
                                | (Returns _, s'') => (Completed Finished, s'')
                                | (Raises e', s'') => (Completed (result_of_exn e'), s'')
                                end
                            end).2) as Hstep.
  { intros m Hm. specialize (Hm s). destruct (m s) as [[pc'|e] s']; simpl in *; [done|].
    specialize (Hend e s').
    destruct (try_finally _ _ s') as [[u|e'] s'']; simpl in *;
      unfold same_history in *; congruence. }
  unfold _mcp_session_runner.
  destruct pc, sig; try done; apply Hstep; try exact Hseg; apply relates_raise; apply _.
Qed.

Lemma same_history_completion_callback (r : task_result) :
  relates same_history (_handle_connection_task_completion r).
Proof.
  unfold _handle_connection_task_completion.
  repeat first [apply same_history_clear_connection | same_history_step].
Qed.

Lemma same_history_disconnect_begin : relates same_history disconnect_begin.
Proof. unfold disconnect_begin. repeat same_history_step. Qed.

Lemma same_history_disconnect_tail : relates same_history disconnect_tail.
Proof.
  unfold disconnect_tail.
  repeat first [apply same_history_clear_connection | same_history_step].
Qed.

Lemma same_history_disconnect_resume (r : task_result) :
  relates same_history (disconnect_resume r).
Proof.
  unfold disconnect_resume.
  repeat first [apply same_history_disconnect_tail | same_history_step].
Qed.

Lemma same_history_run_job (j : job) (l : Loop) :
  messages (app_state (run_job env j l)) = messages (app_state l).
Proof.
  destruct j as [path|t sig| t| |t]; simpl.
  - pose proof (same_history_connect path (next_task l) (app_state l)) as H.
    destruct (connect _ _ _) as [[[|]|e] s']; exact H.
  - destruct (tasks (app_state l) !! t) as [[pc|r]|]; try done.
    pose proof (same_history_runner t pc sig (app_state l)) as H.
    destruct (_mcp_session_runner _ _ _ _ _) as [[pc'|r] s']; exact H.
  - destruct (tasks (app_state l) !! t) as [[pc|r]|]; try done.
    apply same_history_completion_callback.
  - pose proof (same_history_disconnect_begin (app_state l)) as H.
    destruct (disconnect_begin _) as [[[t|]|e] s']; simpl in *; try exact H.
    + etransitivity; [apply same_history_disconnect_tail|exact H].
    + etransitivity; [apply same_history_disconnect_tail|exact H].
  - destruct (tasks (app_state l) !! t) as [[pc|r]|]; try done.
    apply same_history_disconnect_resume.
Qed.

(** *** At most five completion calls in a turn *)

#[local] Instance same_calls_preorder : PreOrder same_calls.
Proof.
  split; [by intros s|]. intros s1 s2 s3 H12 H23. unfold same_calls in *. congruence.
Qed.

#[local] Instance same_calls_frame : Frame same_calls.
Proof. by intros s s' _ H. Qed.

#[local] Instance same_calls_await : AwaitFrame same_calls.
Proof. by intros s s' _ H. Qed.

Lemma same_calls_set_messages (f : list message -> list message) :
  relates same_calls (modify (set_messages f)).
Proof. by intros s. Qed.

Ltac same_calls_step :=
  first
    [ apply same_calls_set_messages
    | apply relates_call_tool; apply _
    | apply relates_refresh_tool_catalog; apply _
    | relates_step ].

Lemma same_calls_execute_tool_calls (tool_calls : list tool_call) :
  relates same_calls (execute_tool_calls env tool_calls).
Proof. unfold execute_tool_calls, run_tool_call. repeat same_calls_step. Qed.

Lemma same_calls_append_assistant_message (response_dump : message)
    (content : option string) :
  relates same_calls (append_assistant_message response_dump content).
Proof. unfold append_assistant_message. repeat same_calls_step. Qed.

Lemma calls_le_same {A} (n : nat) (m : M A) :
  relates same_calls m -> relates (calls_le n) m.
Proof. intros Hm s. specialize (Hm s). unfold same_calls, calls_le in *. lia. Qed.

Lemma calls_le_bind {A B} (n k : nat) (m : M A) (f : A -> M B) :
  relates (calls_le n) m -> (forall a, relates (calls_le k) (f a)) ->
  relates (calls_le (n + k)) (m ≫= f).
Proof.
  intros Hm Hf s. unfold mbind, M_bind. specialize (Hm s).
  destruct (m s) as [[a|e] s1]; simpl in *.
  - specialize (Hf a s1). unfold calls_le in *. lia.
  - unfold calls_le in *. lia.
Qed.

Lemma calls_le_try_except {A} (n : nat) (body : M A) (handler : exn -> M A) :
  relates (calls_le n) body -> (forall e, relates same_calls (handler e)) ->
  relates (calls_le n) (try_except body handler).
Proof.
  intros Hb Hh s. unfold try_except. specialize (Hb s).
  destruct (body s) as [[a|e] s1]; simpl in *; [done|].
  destruct (is_Exception e); [|done].
  specialize (Hh e s1). unfold same_calls, calls_le in *. lia.
Qed.

Lemma calls_le_try_finally {A} (n : nat) (body : M A) (final : M unit) :
  relates (calls_le n) body -> relates same_calls final ->
  relates (calls_le n) (try_finally body final).
Proof.
  intros Hb Hf s. unfold try_finally. specialize (Hb s).
  destruct (body s) as [r s1]; simpl in *. specialize (Hf s1).
  destruct (final s1) as [[u|e] s2]; simpl in *; unfold same_calls, calls_le in *; lia.
Qed.

Lemma calls_le_get_completion (deployment : string) (msgs : list message)
    (tools : option (list json)) :
  relates (calls_le 1) (get_completion env deployment msgs tools).
Proof.
  intros s. unfold get_completion, mbind, M_bind, get_state, calls_le.
  destruct (llm s); simpl; [|lia].
  unfold try_except, blocking_io, mbind, M_bind. simpl.
  assert (completion_calls
            (trace s ++ [CompletionsCreate (completion_request_of deployment msgs tools)])
          = completion_calls (trace s) + 1) as Hone.
  { unfold completion_calls. rewrite filter_app, length_app. simpl. done. }
  destruct (completions_create env (clock s) _) as [[|choice choices]|e]; simpl.
  - rewrite completion_calls_quiet by (by repeat constructor). simpl. lia.
  - simpl. lia.
  - destruct (is_Exception e); simpl; [|lia].
    rewrite completion_calls_quiet by (by repeat constructor). simpl. lia.
Qed.

Lemma calls_le_loop_body (defs : list json) (iterations : nat) :
  relates (calls_le 1) (loop_body env defs iterations).
Proof.
  unfold loop_body.
  apply (calls_le_bind 0 1); [apply calls_le_same; repeat same_calls_step|intros _].
  apply (calls_le_bind 0 1); [apply calls_le_same; repeat same_calls_step|intros s0].
  apply (calls_le_bind 1 0); [apply calls_le_get_completion|intros response_message].
  apply calls_le_same.
  repeat first [ apply same_calls_execute_tool_calls
               | apply same_calls_append_assistant_message
               | same_calls_step ].
Qed.

Lemma calls_le_while_loop (fuel : nat) (defs : list json) (iterations : nat) :
  relates (calls_le (max_iterations - iterations)) (while_loop env fuel defs iterations).
Proof.
  revert iterations. induction fuel as [|fuel IH]; intros iterations; simpl.
  - apply calls_le_same. repeat same_calls_step.
  - case_bool_decide as Hlt; [|apply calls_le_same; repeat same_calls_step].
    replace (max_iterations - iterations) with (1 + (max_iterations - (iterations + 1)))
      by lia.
    apply calls_le_bind; [apply calls_le_loop_body|].
    intros [|]; [apply IH|apply calls_le_same; repeat same_calls_step].
Qed.

Lemma calls_le_process : relates (calls_le max_iterations) (_process_llm_interaction env).
Proof.
  unfold _process_llm_interaction, run_iterations.
  apply calls_le_try_finally; [|repeat same_calls_step].
  apply calls_le_try_except; [|intros e; repeat same_calls_step].
  replace max_iterations with ((0 + (max_iterations - 0)) + 0) at 1 by done.
  apply calls_le_bind; [|intros n; apply calls_le_same; repeat same_calls_step].
  apply calls_le_bind; [apply calls_le_same; repeat same_calls_step|intros defs].
  apply calls_le_while_loop.
Qed.

(** The bound on the number of iterations of [while_loop] is never what
    stops it: any bound that covers the iterations left gives the same run. *)
Lemma while_loop_fuel_enough (fuel fuel' : nat) (defs : list json) (iterations : nat)
    (s : State) :
  max_iterations - iterations <= fuel -> max_iterations - iterations <= fuel' ->
  while_loop env fuel defs iterations s = while_loop env fuel' defs iterations s.
Proof.
  revert fuel' iterations s.
  induction fuel as [|fuel IH]; intros fuel' iterations s Hfuel Hfuel'.
  - destruct fuel'; simpl; case_bool_decide; try done; lia.
  - destruct fuel' as [|fuel']; simpl; case_bool_decide as Hlt; try done; [lia|].
    unfold mbind, M_bind.
    destruct (loop_body env defs (iterations + 1) s) as [[[|]|e] s1]; try done.
    apply IH; lia.
Qed.

End Properties.

(** ** Histories that start with the system prompt *)

Lemma system_prompt_kept (s s' : State) :
  (exists rest, messages s = system_message :: rest) ->
  messages s `prefix_of` messages s' ->
  exists rest, messages s' = system_message :: rest.
Proof.
  intros [rest Hs] [k Hk]. rewrite Hk, Hs. by eexists.
Qed.

Lemma system_prompt_prefix (h h' : list message) :
  (exists rest, h = system_message :: rest) ->
  h `prefix_of` h' ->
  exists rest, h' = system_message :: rest.
Proof. intros [rest ->] [k ->]. by eexists. Qed.

Lemma system_prompt_same (s s' : State) :
  (exists rest, messages s = system_message :: rest) ->
  messages s' = messages s ->
  exists rest, messages s' = system_message :: rest.
Proof. intros [rest Hs] Heq. rewrite Heq, Hs. by eexists. Qed.

(** ** Tool calls are answered one by one, in order *)

Section ToolCalls.

Variable env : Oracle.

Hypothesis no_cancellation : tool_failures_are_exceptions env.








Lemma get_completion_returns (s : State) (deployment : string) (msgs : list message)
    (tools : option (list json)) (r : response) (others : list response) :
  is_initialized s = true ->
  completions_create env (clock s) (completion_request_of deployment msgs tools)
  = Returns (r :: others) ->
  get_completion env deployment msgs tools s
  = (Returns r,
     tick (add_events [CompletionsCreate (completion_request_of deployment msgs tools)] s)).
Proof.
  unfold is_initialized. intros Hinit Hcreate.
  unfold get_completion, mbind, M_bind, get_state.
  destruct (llm s) as [client|]; [|done].
  unfold try_except, blocking_io, mbind, M_bind. simpl. by rewrite Hcreate.
Qed.


Lemma bind_returns {A B} (m : M A) (f : A -> M B) (s s' : State) (a : A) :
  m s = (Returns a, s') -> (m ≫= f) s = f a s'.
Proof. intros H. unfold mbind, M_bind. by rewrite H. Qed.



End ToolCalls.

(** ** Disconnecting while the lifecycle task runs *)

Section Lifecycle.

Variable env : Oracle.

Lemma run_loop_step (fuel : nat) (j : job) (rest : list job) (s : State)
    (cbs : gmap nat (list job)) (n : nat) :
  run_loop env (S fuel) (mkLoop s (j :: rest) cbs n)
  = run_loop env fuel (run_job env j (mkLoop s rest cbs n)).
Proof. reflexivity. Qed.

Lemma run_loop_idle (fuel : nat) (s : State) (cbs : gmap nat (list job)) (n : nat) :
  run_loop env fuel (mkLoop s [] cbs n) = mkLoop s [] cbs n.
Proof. by destruct fuel. Qed.

Lemma state_eq (s s' : State) :
  messages s = messages s' -> llm s = llm s' -> mcp_handler s = mcp_handler s' ->
  deployment s = deployment s' -> tasks s = tasks s' -> trace s = trace s' ->
  clock s = clock s' -> s = s'.
Proof. destruct s, s'. simpl. by intros -> -> -> -> -> -> ->. Qed.

(** [disconnect] finds a pending task: it cancels it and waits for it. *)
Lemma disconnect_job_cancels (s : State) (q : list job) (cbs : gmap nat (list job))
    (n t : nat) (pc : runner_pc) :
  _connection_task (mcp_handler s) = Some t ->
  tasks s !! t = Some (Pending pc) ->
  run_job env DisconnectJob (mkLoop s q cbs n)
  = mkLoop (add_events [CancelTask t] s) (request_cancel t q)
           (<[t := default [] (cbs !! t) ++ [DisconnectWakeup t]]> cbs) n.
Proof.
  intros Htask Hpending. unfold run_job, disconnect_begin, mbind, M_bind, get_state.
  cbn [app_state ready done_callbacks next_task]. rewrite Htask. unfold task_done.
  by rewrite Hpending.
Qed.

(** The lifecycle coroutine, cancelled during the handshake: its [finally]
    block runs, and the task ends cancelled. *)
Lemma runner_cancelled_in_handshake (s : State) (t : nat) (msg : string) :
  _update_callback (mcp_handler s) = Some bound_handle_handler_update ->
  _mcp_session_runner env t AwaitHandshake (Throw (mkExn CancelledError msg)) s
  = (Completed Cancelled,
     add_events [UpdateStatus "Disconnected"]
       (set_mcp (mkMCPHandler None None (Some bound_handle_handler_update)) (tasks s)
          (add_events [UpdateOutput "MCP connection closed." "system"] s))).
Proof.
  intros Hcb.
  unfold _mcp_session_runner, try_finally, runner_except, runner_finally, raise,
    clear_connection, mbind, M_bind, _log, call_update_callback, modify.
  cbn. rewrite Hcb. unfold set_connection_task, set_session. cbn.
  rewrite ?Hcb. reflexivity.
Qed.

(** The done callback of a cancelled task. *)
Lemma completion_callback_cancelled (s : State) :
  _update_callback (mcp_handler s) = Some bound_handle_handler_update ->
  _handle_connection_task_completion Cancelled s
  = (Returns tt,
     add_events [UpdateStatus "Disconnected"]
       (set_mcp (mkMCPHandler None None (Some bound_handle_handler_update)) (tasks s)
          (add_events [UpdateOutput "MCP connection task was cancelled." "system"] s))).
Proof.
  intros Hcb.
  unfold _handle_connection_task_completion, try_finally, clear_connection, mbind, M_bind,
    _log, call_update_callback, get_state, modify.
  cbn. rewrite Hcb. unfold set_connection_task, set_session. cbn.
  rewrite ?Hcb. reflexivity.
Qed.

(** [disconnect] resumes from a cancelled task. *)
Lemma disconnect_resume_cancelled (s : State) :
  _update_callback (mcp_handler s) = Some bound_handle_handler_update ->
  disconnect_resume Cancelled s
  = (Returns tt,
     add_events [UpdateStatus "Disconnected"]
       (set_mcp (mkMCPHandler None None (Some bound_handle_handler_update)) (tasks s)
          (add_events [UpdateOutput "MCP connection cancelled." "system"] s))).
Proof.
  intros Hcb.
  unfold disconnect_resume, disconnect_tail, clear_connection, mbind, M_bind, _log,
    call_update_callback, get_state, modify.
  cbn. rewrite Hcb. cbn.
  destruct (session (mcp_handler s)) as [[i []]|];
    unfold set_connection_task, set_session; cbn; rewrite ?Hcb; reflexivity.
Qed.

(** The four callbacks the loop runs for such a [disconnect], and the state
    they leave. *)
Lemma disconnect_during_handshake_run (s : State) (cbs : gmap nat (list job)) (n t : nat) :
  _connection_task (mcp_handler s) = Some t ->
  tasks s !! t = Some (Pending AwaitHandshake) ->
  _update_callback (mcp_handler s) = Some bound_handle_handler_update ->
  cbs !! t = Some [CompletionCallback t] ->
  run_loop env 4 (mkLoop s [DisconnectJob] cbs n)
  = mkLoop
      (mkState (messages s) (llm s)
               (mkMCPHandler None None (Some bound_handle_handler_update))
               (deployment s) (<[t := Done Cancelled]> (tasks s))
               (trace s
                ++ [CancelTask t;
                    UpdateOutput "MCP connection closed." "system";
                    UpdateStatus "Disconnected";
                    UpdateOutput "MCP connection task was cancelled." "system";
                    UpdateStatus "Disconnected";
                    UpdateOutput "MCP connection cancelled." "system";
                    UpdateStatus "Disconnected"])
               (clock s))
      []
      (delete t (<[t := [CompletionCallback t; DisconnectWakeup t]]> cbs))
      n.
Proof.
  intros Htask Hpending Hcb Hdone.
  rewrite run_loop_step, (disconnect_job_cancels s [] cbs n t _ Htask Hpending).
  rewrite Hdone. cbn [request_cancel default from_option id app].
  rewrite run_loop_step. unfold run_job at 1. cbn [app_state ready done_callbacks next_task].
  change (tasks (add_events [CancelTask t] s)) with (tasks s). rewrite Hpending.
  rewrite runner_cancelled_in_handshake by exact Hcb.
  rewrite lookup_insert_eq. cbn [default from_option id app].
  rewrite run_loop_step. unfold run_job at 1. cbn [app_state ready done_callbacks next_task].
  unfold set_task at 1. cbn [tasks set_mcp add_events]. rewrite lookup_insert_eq.
  rewrite completion_callback_cancelled by reflexivity.
  rewrite run_loop_step. unfold run_job at 1. cbn [app_state ready done_callbacks next_task snd].
  cbn [tasks set_mcp add_events set_task]. rewrite lookup_insert_eq.
  rewrite disconnect_resume_cancelled by reflexivity.
  rewrite run_loop_idle. f_equal.
  apply state_eq; cbn [messages llm mcp_handler deployment tasks trace clock snd
                        add_events set_task set_mcp]; try reflexivity.
  by rewrite <- !app_assoc.
Qed.

(** C7, as the code has it: when [disconnect] runs while the lifecycle task
    is in its handshake, the task is cancelled and awaited, the loop comes
    to rest with the session handle and the task reference cleared and the
    task cancelled, and the status "Disconnected" is shown three times: by
    the [finally] block of the task, by its done callback, and by
    [disconnect] itself. *)
Theorem disconnect_during_handshake (l : Loop) (t : nat) :
  ready l = [] ->
  _connection_task (mcp_handler (app_state l)) = Some t ->
  tasks (app_state l) !! t = Some (Pending AwaitHandshake) ->
  _update_callback (mcp_handler (app_state l)) = Some bound_handle_handler_update ->
  done_callbacks l !! t = Some [CompletionCallback t] ->
  ready (run_loop env 4 (enqueue DisconnectJob l)) = []
  /\ session (mcp_handler (app_state (run_loop env 4 (enqueue DisconnectJob l)))) = None
  /\ _connection_task (mcp_handler (app_state (run_loop env 4 (enqueue DisconnectJob l)))) = None
  /\ tasks (app_state (run_loop env 4 (enqueue DisconnectJob l))) !! t = Some (Done Cancelled)
  /\ trace (app_state (run_loop env 4 (enqueue DisconnectJob l)))
     = trace (app_state l)
       ++ [CancelTask t;
           UpdateOutput "MCP connection closed." "system";
           UpdateStatus "Disconnected";
           UpdateOutput "MCP connection task was cancelled." "system";
           UpdateStatus "Disconnected";
           UpdateOutput "MCP connection cancelled." "system";
           UpdateStatus "Disconnected"]
  /\ count_disconnected
       (drop (length (trace (app_state l)))
             (trace (app_state (run_loop env 4 (enqueue DisconnectJob l))))) = 3.
Proof.
  destruct l as [s q cbs n]. cbn [app_state ready done_callbacks next_task].
  intros -> Htask Hpending Hcb Hdone.
  unfold enqueue. cbn [app_state ready done_callbacks next_task app].
  rewrite (disconnect_during_handshake_run s cbs n t Htask Hpending Hcb Hdone).
  cbn [app_state ready mcp_handler session _connection_task tasks trace].
  rewrite lookup_insert_eq, drop_app_length.
  repeat split; reflexivity.
Qed.

End Lifecycle.

(** ** The iteration ceiling *)

(** C1, where the code departs from it: the model asks for tools in four
    completions and gives its final answer in the fifth. The loop is left
    by [break] with the turn complete, after five completion calls, and the
    "maximum iterations" notice is shown all the same, right after the
    final answer. *)
Theorem max_iterations_notice_after_final_answer :
  completion_calls
    (trace (_process_llm_interaction example_four_tool_rounds example_turn_state).2) = 5
  /\ shown (drop (length (trace example_turn_state))
                 (trace (_process_llm_interaction example_four_tool_rounds
                                                  example_turn_state).2))
     = [UpdateOutput "Not connected to MCP server. Proceeding without tools." "system";
        UpdateStatus "LLM Call 1...";
        UpdateOutput "LLM requested tool call, but not connected to MCP server." "system";
        UpdateStatus "LLM Call 2...";
        UpdateOutput "LLM requested tool call, but not connected to MCP server." "system";
        UpdateStatus "LLM Call 3...";
        UpdateOutput "LLM requested tool call, but not connected to MCP server." "system";
        UpdateStatus "LLM Call 4...";
        UpdateOutput "LLM requested tool call, but not connected to MCP server." "system";
        UpdateStatus "LLM Call 5...";
        UpdateOutput "Done." "assistant";
        UpdateOutput "Reached maximum tool call iterations (5)." "system";
        UpdateStatus "Ready"].
Proof. vm_compute. done. Qed.

(** ** Requests that stay without an answer *)

(** C3, where the code departs from it: the handler is connected and the
    model asks for two tool calls, the first with arguments that are nested
    deeper than [json.loads] recurses. [json.loads] raises [RecursionError],
    which the [except json.JSONDecodeError] clause around it does not catch:
    it ends the turn through the [except Exception] clause at its end. The
    assistant message with the two requests is in the history by then, and
    no tool-role message follows it, for neither request. *)
Theorem tool_call_requests_left_unanswered :
  (_process_llm_interaction example_deep_turn example_connected_turn_state).1 = Returns tt
  /\ messages (_process_llm_interaction example_deep_turn example_connected_turn_state).2
     = messages example_connected_turn_state ++ [response_dump_of example_deep_request]
  /\ response_tool_calls example_deep_request
     = Some [mkToolCall "call_0" "search" example_deep_arguments;
             mkToolCall "call_1" "search" "{}"]
  /\ shown (drop (length (trace example_connected_turn_state))
                 (trace (_process_llm_interaction example_deep_turn
                                                  example_connected_turn_state).2))
     = [UpdateStatus "LLM Call 1...";
        UpdateOutput "Error during LLM processing: maximum recursion depth exceeded while decoding a JSON array from a unicode string"
                     "system";
        UpdateOutput "Traceback: Traceback (most recent call last): maximum recursion depth exceeded while decoding a JSON array from a unicode string"
                     "system";
        UpdateStatus "Ready"].
Proof. vm_compute. done. Qed.

(** X1: at most five completion calls are made in a turn, whatever the
    state it starts from and whatever the outside answers. *)
Theorem completion_calls_at_most_five (env : Oracle) (s : State) :
  completion_calls (trace (_process_llm_interaction env s).2)
  <= completion_calls (trace s) + 5.
Proof. apply calls_le_process. Qed.

(** X2: after the loop the turn only shows things: the "maximum iterations"
    notice, once, exactly when the loop is left with [iterations] at the
    ceiling; or the two error lines when an exception was caught; and then,
    in every case, the status reset. *)
Theorem after_the_loop (env : Oracle) (s : State) :
  trace (_process_llm_interaction env s).2
  = trace (run_iterations env s).2
    ++ match (run_iterations env s).1 with
       | Returns iterations =>
           if bool_decide (max_iterations <= iterations)
           then [max_iterations_notice] else []
       | Raises e =>
           if is_Exception e
           then [UpdateOutput ("Error during LLM processing: " +:+ exn_str e) "system";
                 UpdateOutput ("Traceback: " +:+ format_exc env e) "system"]
           else []
       end
    ++ [UpdateStatus "Ready"].
Proof.
  unfold _process_llm_interaction, try_finally, try_except, mbind, M_bind.
  destruct (run_iterations env s) as [[iterations|e] s1]; simpl.
  - case_bool_decide; simpl; by rewrite <- ?app_assoc.
  - destruct (is_Exception e); simpl; by rewrite <- ?app_assoc.
Qed.

(** X3: the loop is left with [iterations] at most at the ceiling. *)
Theorem iterations_at_most_ceiling (env : Oracle) (defs : list json) (s : State)
    (iterations : nat) :
  (while_loop env max_iterations defs 0 s).1 = Returns iterations ->
  iterations <= max_iterations.
Proof.
  assert (forall fuel start s0 n, start <= max_iterations ->
            (while_loop env fuel defs start s0).1 = Returns n -> n <= max_iterations)
    as Hgen.
  { induction fuel as [|fuel IH]; intros start s0 n Hstart; simpl.
    - case_bool_decide; simpl; intros [= <-]; done.
    - case_bool_decide as Hlt; simpl; [|by intros [= <-]].
      unfold mbind, M_bind.
      destruct (loop_body env defs (start + 1) s0) as [[[|]|e] s1]; simpl.
      + apply IH. lia.
      + intros [= <-]. lia.
      + done. }
  apply Hgen. lia.
Qed.

(** ** The properties on concrete inputs *)

Lemma is_connected_iff_witness :
  is_connected {[ 0%nat := Done Finished ]}
               (mkMCPHandler (Some (mkSession 0 false)) (Some 0%nat) None) = false.
Proof.
  apply (proj2 (is_connected_iff {[ 0%nat := Done Finished ]}
                  (mkMCPHandler (Some (mkSession 0 false)) (Some 0%nat) None))
           (mkSession 0 false) 0%nat); reflexivity.
Defined.

Lemma call_tool_list_tools_never_raise_witness :
  ((call_tool example_outage "search" (JDict []) example_state).1
   = Returns (error_payload "Not connected to MCP server.")
   /\ (list_tools example_outage true example_state).1 = Returns None)
  /\ (call_tool example_outage "search" (JDict []) example_connected_state).1
     = Returns (error_payload "tool crashed")
  /\ (call_tool example_picture "search" (JDict []) example_connected_state).1
     = Returns (error_payload "module 'mcp.types' has no attribute 'JsonContent'").
Proof.
  split; [|split].
  - apply (proj1 (call_tool_list_tools_never_raise example_outage example_state
                    "search" (JDict []) true)).
    reflexivity.
  - apply (proj1 (proj1 (proj2 (call_tool_list_tools_never_raise example_outage
                                  example_connected_state "search" (JDict []) true))
                    eq_refl)
             (mkExn OtherException "tool crashed")); reflexivity.
  - apply (proj2 (proj1 (proj2 (call_tool_list_tools_never_raise example_picture
                                  example_connected_state "search" (JDict []) true))
                    eq_refl)
             [TextContent "A map of Paris."; ImageContent None] no_JsonContent);
      reflexivity.
Defined.

Lemma get_completion_failure_is_message_witness :
  (get_completion example_outage "gpt" (messages example_turn_state) None
                  example_turn_state).1
  = Returns (SimpleNamespace "assistant"
               (Some "Error communicating with LLM: Connection error.") None).
Proof.
  apply (get_completion_failure_is_message example_outage example_turn_state "gpt"
           (messages example_turn_state) None (mkExn APIError "Connection error."));
    reflexivity.
Defined.

Lemma format_tools_for_openai_default_schema_witness :
  format_tools_for_openai
    (Some [mkTool "search" (Some "Web search") (Some (JDict [("type", JStr "object")]));
           mkTool "ping" None None;
           mkTool "odd" None (Some JNull)]) !! 2%nat
  = Some (JDict [("type", JStr "function");
                 ("function",
                  JDict [("name", JStr "odd");
                         ("description", JNull);
                         ("parameters",
                          JDict [("type", JStr "object"); ("properties", JDict [])])])]).
Proof.
  apply (proj2 format_tools_for_openai_default_schema
           [mkTool "search" (Some "Web search") (Some (JDict [("type", JStr "object")]));
            mkTool "ping" None None;
            mkTool "odd" None (Some JNull)]
           2%nat (mkTool "odd" None (Some JNull))); reflexivity.
Defined.

Lemma send_message_to_llm_empty_is_noop_witness :
  send_message_to_llm EmptyString example_state = (Returns tt, example_state).
Proof. apply send_message_to_llm_empty_is_noop. reflexivity. Defined.

Lemma send_message_to_llm_preflight_witness :
  messages (send_message_to_llm "hello" example_state).2
  = messages example_state ++ [user_message "hello"]
  /\ messages (send_message_to_llm "hello" (set_llm None example_state)).2
     = messages example_state.
Proof.
  split.
  - apply (send_message_to_llm_preflight example_state "hello"). reflexivity.
  - apply (send_message_to_llm_preflight (set_llm None example_state) "hello"). reflexivity.
Defined.


Lemma disconnect_during_handshake_witness :
  count_disconnected
    (drop (length (trace (app_state example_handshake_loop)))
          (trace (app_state (run_loop example_outage 4
                               (enqueue DisconnectJob example_handshake_loop))))) = 3.
Proof.
  apply (disconnect_during_handshake example_outage example_handshake_loop 0);
    reflexivity.
Defined.

(** C7 as the specification states it fails: the "Disconnected" status is
    not shown exactly once when [disconnect] interrupts the handshake. *)
Lemma disconnect_during_handshake_not_once :
  count_disconnected
    (drop (length (trace (app_state example_handshake_loop)))
          (trace (app_state (run_loop example_outage 4
                               (enqueue DisconnectJob example_handshake_loop))))) <> 1.
Proof. vm_compute. discriminate. Qed.

Lemma iterations_at_most_ceiling_witness :
  (5 <= max_iterations)%nat.
Proof.
  apply (iterations_at_most_ceiling example_four_tool_rounds [] example_turn_state 5).
  vm_compute. reflexivity.
Defined.

(** * More of the program *)

(** ** llm_handler.py: [initialize] *)

Lemma initialize_flag (env : Oracle) (api_key endpoint : option string) (s : State) :
  match (initialize env api_key endpoint s).1 with
  | Returns r => is_initialized (initialize env api_key endpoint s).2 = r.1
  | Raises e => is_Exception e = false
  end.
Proof.
  unfold initialize, is_initialized, mbind, M_bind, emit, modify.
  destruct api_key as [key|], endpoint as [url|]; simpl; try done.
  destruct (truthy_str key), (truthy_str url); simpl; try done.
  destruct (new_client env key url) as [client|e]; simpl; [done|].
  unfold is_Exception. destruct (exn_class_of e) eqn:Hclass; simpl; rewrite ?Hclass; done.
Qed.

(** X4: the flag [initialize] returns tells whether a client is held
    afterwards, and [initialize] lets no exception escape; with a missing
    or empty key or endpoint it answers
    [(False, "Missing API key or endpoint")] and drops the client it held. *)
Theorem initialize_flag_tells_state (env : Oracle) (api_key endpoint : option string)
    (s : State) :
  match (initialize env api_key endpoint s).1 with
  | Returns r => is_initialized (initialize env api_key endpoint s).2 = r.1
  | Raises e => is_Exception e = false
  end
  /\ (truthy_opt_str api_key = false \/ truthy_opt_str endpoint = false ->
      (initialize env api_key endpoint s).1 = Returns (false, "Missing API key or endpoint")
      /\ llm (initialize env api_key endpoint s).2 = None).
Proof.
  split; [apply initialize_flag|].
  unfold initialize, mbind, M_bind, emit, modify.
  destruct api_key as [key|], endpoint as [url|]; simpl; try done.
  intros [Hk|Hu]; [rewrite Hk|rewrite Hu]; simpl; rewrite ?orb_true_r; done.
Qed.

(** ** controller.py: start-up and settings *)

Lemma initialize_same_history (env : Oracle) (api_key endpoint : option string) (s : State) :
  messages (initialize env api_key endpoint s).2 = messages s
  /\ deployment (initialize env api_key endpoint s).2 = deployment s.
Proof.
  unfold initialize, mbind, M_bind, emit, modify.
  destruct api_key as [key|], endpoint as [url|]; simpl; try done.
  destruct (truthy_str key), (truthy_str url); simpl; try done.
  destruct (new_client env key url) as [client|e]; simpl; [done|].
  by destruct (exn_class_of e).
Qed.

(** X5: [AppController.__init__] leaves a history that holds the system
    prompt alone, and when it returns the last status it set is "LLM Ready"
    if a client is held and "LLM Init Failed" if not. *)
Theorem AppController_init_state (env : Oracle) (api_key endpoint : option string)
    (gui_deployment : string) :
  messages (AppController_init env api_key endpoint gui_deployment).2 = [system_message]
  /\ match (AppController_init env api_key endpoint gui_deployment).1 with
     | Returns _ =>
         last (trace (AppController_init env api_key endpoint gui_deployment).2)
         = Some (UpdateStatus
                   (if is_initialized (AppController_init env api_key endpoint
                                                          gui_deployment).2
                    then "LLM Ready" else "LLM Init Failed"))
     | Raises e => is_Exception e = false
     end.
Proof.
  unfold AppController_init, _initialize_llm_from_config, mbind, M_bind.
  pose proof (initialize_flag env api_key endpoint (fresh_state gui_deployment)) as Hflag.
  destruct (initialize_same_history env api_key endpoint (fresh_state gui_deployment))
    as [Hm _].
  destruct (initialize env api_key endpoint (fresh_state gui_deployment))
    as [[[success msg]|e] s1]; simpl in *; [|done].
  unfold emit, modify, is_initialized in *. simpl.
  destruct success; simpl; split; try done;
    rewrite last_snoc; simpl; destruct (llm s1); simpl in *; congruence.
Qed.

Lemma send_message_without_client (s : State) (U : string) :
  llm s = None -> truthy_str U = true ->
  (send_message_to_llm U s).1 = Returns tt
  /\ messages (send_message_to_llm U s).2 = messages s
  /\ trace (send_message_to_llm U s).2
     = trace s ++ [UpdateOutput U "user";
                   UpdateOutput "Azure OpenAI client is not initialized. Please check settings."
                                "system"].
Proof.
  intros Hllm Htruthy. unfold send_message_to_llm. rewrite Htruthy. simpl.
  unfold mbind, M_bind, emit, modify, get_state, is_initialized. simpl. rewrite Hllm. simpl.
  rewrite last_snoc, user_message_role. simpl.
  by rewrite removelast_last, <- !app_assoc.
Qed.

(** X6: after [update_azure_config] was given an empty key or an empty
    endpoint, no client is held, whatever was held before; a message the
    user sends next is shown, answered with the "not initialized" line and
    taken out of the history again, and no task is created for it. *)
Theorem failed_reconfiguration_blocks_turn (env : Oracle) (s : State)
    (api_key endpoint gui_deployment U : string) :
  truthy_str api_key = false \/ truthy_str endpoint = false ->
  truthy_str U = true ->
  is_initialized (update_azure_config env api_key endpoint gui_deployment s).2 = false
  /\ messages (send_message_to_llm U
                (update_azure_config env api_key endpoint gui_deployment s).2).2
     = messages s
  /\ trace (send_message_to_llm U
             (update_azure_config env api_key endpoint gui_deployment s).2).2
     = trace (update_azure_config env api_key endpoint gui_deployment s).2
       ++ [UpdateOutput U "user";
           UpdateOutput "Azure OpenAI client is not initialized. Please check settings."
                        "system"].
Proof.
  intros Hempty Htruthy.
  assert (llm (update_azure_config env api_key endpoint gui_deployment s).2 = None
          /\ messages (update_azure_config env api_key endpoint gui_deployment s).2
             = messages s) as [Hllm Hm].
  { unfold update_azure_config, initialize, mbind, M_bind, emit, modify. simpl.
    destruct Hempty as [H|H]; rewrite H; simpl; rewrite ?orb_true_r; done. }
  destruct (send_message_without_client _ U Hllm Htruthy) as (_ & Hm' & Htr).
  unfold is_initialized. rewrite Hllm, Hm', Hm, Htr. done.
Qed.

(** ** mcp_handler.py: [list_tools] and [call_tool] *)

Lemma network_events_app (tr1 tr2 : list event) :
  network_events (tr1 ++ tr2) = network_events tr1 ++ network_events tr2.
Proof. apply filter_app. Qed.

Lemma network_events_elsewhere (es : list event) : network_events (Elsewhere <$> es) = [].
Proof. unfold network_events. induction es as [|e es IH]; [done|]. simpl. exact IH. Qed.

Lemma network_events_log (message role : string) (s : State) :
  exists es, _log message role s = (Returns tt, add_events es s) /\ network_events es = [].
Proof.
  unfold _log. destruct (_update_callback (mcp_handler s)) as [[]|].
  - eexists. split; [done|]. simpl. unfold _handle_handler_update. by case_bool_decide.
  - by eexists.
Qed.

(** X7: a connected [list_tools] asks the session once. It returns the
    list the session gave, as it is, and [None] when the session failed with
    an exception, which it does not raise. *)
Theorem list_tools_result (env : Oracle) (s : State) (log : bool) :
  is_connected (tasks s) (mcp_handler s) = true ->
  (list_tools env log s).1
  = match session_list_tools env (clock s) with
    | Returns tools_list => Returns (Some tools_list)
    | Raises e => if is_Exception e then Returns None else Raises e
    end
  /\ network_events (drop (length (trace s)) (trace (list_tools env log s).2))
     = [SessionListTools].
Proof.
  intros Hc. unfold list_tools, mbind, M_bind, get_state. rewrite Hc. simpl.
  unfold try_except, await_io, mbind, M_bind. simpl.
  set (s1 := tick (interfere _ _)).
  assert (network_events (drop (length (trace s)) (trace s1)) = [SessionListTools])
    as Hs1.
  { unfold s1. simpl. rewrite <- app_assoc, drop_app_length, network_events_app.
    by rewrite network_events_elsewhere. }
  assert (forall es, network_events es = [] ->
            network_events (drop (length (trace s)) (trace s1 ++ es)) = [SessionListTools])
    as Hmore.
  { intros es Hes. unfold s1 in *. simpl in *. rewrite <- !app_assoc, drop_app_length in *.
    rewrite !network_events_app in *. rewrite Hes. by rewrite app_nil_r in *. }
  destruct (session_list_tools env (clock s)) as [tools_list|e]; simpl.
  - destruct log; simpl; [|done].
    match goal with |- context [_log ?m ?r s1] =>
      destruct (network_events_log m r s1) as (es & -> & Hes) end.
    simpl. split; [done|]. by apply Hmore.
  - destruct (is_Exception e); simpl; [|done].
    match goal with |- context [_log ?m ?r s1] =>
      destruct (network_events_log m r s1) as (es & -> & Hes) end.
    simpl.
    match goal with |- context [_log ?m ?r ?s2] =>
      destruct (network_events_log m r s2) as (es' & -> & Hes') end.
    simpl. split; [done|]. rewrite <- app_assoc. apply Hmore.
    by rewrite network_events_app, Hes, Hes'.
Qed.

Lemma serialize_content_texts (env : Oracle) (texts : list string) :
  serialize_content env (TextContent <$> texts) = Returns (text_dict <$> texts).
Proof.
  induction texts as [|text texts IH]; [done|].
  change (serialize_content env (TextContent <$> text :: texts))
    with (match serialize_content env (TextContent <$> texts) with
          | Returns js => Returns (text_dict text :: js)
          | Raises e => Raises e
          end).
  by rewrite IH.
Qed.

Lemma serialize_content_other (env : Oracle) (content : list content_item) :
  has_JsonContent env = false ->
  forallb is_TextContent content = false ->
  serialize_content env content = Raises no_JsonContent.
Proof.
  intros Hhas. induction content as [|item rest IH]; simpl; [done|].
  destruct item as [text|json_value|format|repr]; simpl; rewrite ?Hhas; try done.
  intros Hrest. by rewrite (IH Hrest).
Qed.

(** X8: what a connected [call_tool] returns when the session answers. It
    asks the session once and reaches nothing else. A result of text items
    only comes back as the list of their [{"type": "text", "text": ...}]
    dicts, in order. With a package that has no [JsonContent] class, a
    result with any other item in it comes back as the payload
    [{"error": "module 'mcp.types' has no attribute 'JsonContent'"}]: the
    text items of that result are not returned. *)
Theorem call_tool_result_shape (env : Oracle) (s : State) (name : string)
    (arguments : json) (content : list content_item) :
  is_connected (tasks s) (mcp_handler s) = true ->
  session_call_tool env (clock s) name arguments = Returns content ->
  network_events (drop (length (trace s)) (trace (call_tool env name arguments s).2))
  = [SessionCallTool name arguments]
  /\ (forall texts,
        content = TextContent <$> texts ->
        (call_tool env name arguments s).1 = Returns (JList (text_dict <$> texts)))
  /\ (has_JsonContent env = false ->
      forallb is_TextContent content = false ->
      (call_tool env name arguments s).1
      = Returns (error_payload "module 'mcp.types' has no attribute 'JsonContent'")).
Proof.
  intros Hc Hcall. split; [|split].
  - unfold call_tool, mbind, M_bind, get_state. rewrite Hc. simpl.
    unfold try_except, await_io, lift_outcome, mbind, M_bind. simpl. rewrite Hcall.
    set (s1 := tick (interfere _ _)).
    assert (forall es, network_events es = [] ->
              network_events (drop (length (trace s)) (trace s1 ++ es))
              = [SessionCallTool name arguments]) as Hmore.
    { intros es Hes. unfold s1. simpl. rewrite <- !app_assoc, drop_app_length.
      rewrite !network_events_app, network_events_elsewhere, Hes. done. }
    destruct (serialize_content env content) as [items|e] eqn:Hitems; simpl.
    + specialize (Hmore [] eq_refl). rewrite app_nil_r in Hmore. exact Hmore.
    + rewrite (serialize_content_raises _ _ _ Hitems).
      match goal with |- context [_log ?m ?r s1] =>
        destruct (network_events_log m r s1) as (es & -> & Hes) end.
      simpl.
      match goal with |- context [_log ?m ?r ?s2] =>
        destruct (network_events_log m r s2) as (es' & -> & Hes') end.
      simpl. rewrite <- app_assoc. apply Hmore.
      by rewrite network_events_app, Hes, Hes'.
  - intros texts ->. rewrite (call_tool_connected _ _ _ _ Hc), Hcall.
    by rewrite serialize_content_texts.
  - intros Hhas Hother. rewrite (call_tool_connected _ _ _ _ Hc), Hcall.
    by rewrite (serialize_content_other _ _ Hhas Hother).
Qed.

(** ** llm_handler.py: [format_tools_for_openai] *)

(** X9: [format_tools_for_openai] gives one definition per tool, in order:
    the [i]-th one carries the name and the description of the [i]-th tool,
    and under [parameters] always a dict, which is the tool's own schema
    whenever that is a dict. *)
Theorem format_tools_for_openai_shape (mcp_tools : list Tool) :
  length (format_tools_for_openai (Some mcp_tools)) = length mcp_tools
  /\ forall (i : nat) (tool : Tool),
       mcp_tools !! i = Some tool ->
       exists parameters,
         format_tools_for_openai (Some mcp_tools) !! i
         = Some (JDict [("type", JStr "function");
                        ("function",
                         JDict [("name", JStr (tool_name tool));
                                ("description", json_of_option_str (tool_description tool));
                                ("parameters", parameters)])])
         /\ is_dict parameters = true
         /\ (forall schema, inputSchema tool = Some schema -> is_dict schema = true ->
               parameters = schema).
Proof.
  assert (format_tools_for_openai (Some mcp_tools) = format_tool <$> mcp_tools) as ->
    by (by destruct mcp_tools).
  split; [apply length_fmap|].
  intros i tool Hi. rewrite list_lookup_fmap, Hi. simpl. unfold format_tool.
  eexists. split; [reflexivity|].
  destruct (inputSchema tool) as [schema|]; simpl; [|split; [done|by intros]].
  destruct (is_dict schema) eqn:Hdict; split; try done.
  - by intros ? [= ->].
  - intros ? [= ->]. congruence.
Qed.

(** ** controller.py: the conversation loop *)

Lemma not_connected_call_tool (env : Oracle) (s : State) (name : string) (arguments : json) :
  is_connected (tasks s) (mcp_handler s) = false ->
  exists es,
    call_tool env name arguments s
    = (Returns (error_payload "Not connected to MCP server."), add_events es s)
    /\ network_events es = [].
Proof.
  intros Hc. unfold call_tool, mbind, M_bind, get_state. rewrite Hc. simpl.
  unfold _log. destruct (_update_callback (mcp_handler s)) as [[]|]; simpl.
  - eexists. split; [reflexivity|]. unfold _handle_handler_update. by case_bool_decide.
  - by eexists.
Qed.

(** X10: a tool call that cannot be made does not reach the server. When
    [json.loads] rejects its arguments with [JSONDecodeError], one tool-role
    message is appended with [{"error": "Invalid arguments JSON"}] and the
    loop goes on; when [json.loads] raises anything else, the exception
    leaves [run_tool_call] with nothing shown and nothing appended, so that
    this request and the ones after it get no answer; when the arguments
    parse and the connection is gone by the time of the call, one tool-role
    message is appended with [{"error": "Not connected to MCP server."}]. *)
Theorem tool_call_not_made (env : Oracle) (tc : tool_call) (s : State) :
  (forall e,
     json_loads env (tc_arguments tc) = Raises e ->
     exn_class_of e = JSONDecodeError ->
     (run_tool_call env tc s).1 = Returns tt
     /\ messages (run_tool_call env tc s).2
        = messages s
          ++ [tool_message (tc_id tc) (tc_name tc)
                (json_dumps env (error_payload "Invalid arguments JSON"))]
     /\ network_events (drop (length (trace s)) (trace (run_tool_call env tc s).2)) = []
     /\ clock (run_tool_call env tc s).2 = clock s)
  /\ (forall e,
        json_loads env (tc_arguments tc) = Raises e ->
        exn_class_of e <> JSONDecodeError ->
        run_tool_call env tc s = (Raises e, s))
  /\ (forall function_args,
        json_loads env (tc_arguments tc) = Returns function_args ->
        is_connected (tasks s) (mcp_handler s) = false ->
        (run_tool_call env tc s).1 = Returns tt
        /\ messages (run_tool_call env tc s).2
           = messages s
             ++ [tool_message (tc_id tc) (tc_name tc)
                   (json_dumps env (error_payload "Not connected to MCP server."))]
        /\ network_events (drop (length (trace s)) (trace (run_tool_call env tc s).2)) = []
        /\ clock (run_tool_call env tc s).2 = clock s).
Proof.
  unfold run_tool_call. split; [|split].
  - intros e -> ->. unfold mbind, M_bind, emit, modify. simpl.
    rewrite drop_app_length. done.
  - intros e -> Hclass. by destruct (exn_class_of e).
  - intros function_args -> Hc.
    unfold mbind, M_bind, emit, modify. simpl.
    destruct (not_connected_call_tool env
                (add_events [UpdateOutput
                   ("Tool Call:" +:+ LF +:+ "  Name: " +:+ tc_name tc +:+ LF +:+ "  Args: "
                    +:+ json_dumps_indent env function_args) "tool_call"] s)
                (tc_name tc) function_args Hc) as (es & -> & Hes).
    simpl. rewrite <- !app_assoc, drop_app_length.
    repeat split; try done.
    rewrite !network_events_app, Hes. done.
Qed.

(** X11: an iteration whose completion carries no tool call ends the loop.
    What the model said is shown (or a placeholder line when it said
    nothing, or a failure line when the answer has no [role]); it is not put
    into the history, which stays as it was. *)
Theorem answer_without_tool_calls_ends_loop (env : Oracle) (s : State) (defs : list json)
    (iterations : nat) (response_message : response) (others : list response) :
  is_initialized s = true ->
  completions_create env (clock s)
    (completion_request_of (deployment s) (messages s)
       (if truthy_list defs then Some defs else None))
  = Returns (response_message :: others) ->
  truthy_opt_list (response_tool_calls response_message) = false ->
  (loop_body env defs iterations s).1 = Returns Break
  /\ messages (loop_body env defs iterations s).2 = messages s
  /\ trace (loop_body env defs iterations s).2
     = trace s
       ++ [UpdateStatus ("LLM Call " +:+ pretty iterations +:+ "...");
           CompletionsCreate
             (completion_request_of (deployment s) (messages s)
                (if truthy_list defs then Some defs else None));
           match response_message with
           | Opaque repr =>
               UpdateOutput ("Failed to get LLM response: " +:+ repr) "system"
           | _ =>
               if truthy_opt_str (response_content response_message)
               then UpdateOutput (default EmptyString (response_content response_message))
                                 "assistant"
               else UpdateOutput "(No text response and no tool call)" "system"
           end].
Proof.
  intros Hinit Hcreate Hcalls. unfold loop_body.
  set (s1 := add_events [UpdateStatus ("LLM Call " +:+ pretty iterations +:+ "...")] s).
  rewrite (bind_returns _ _ s s1 tt) by reflexivity.
  rewrite (bind_returns get_state _ _ _ _ eq_refl).
  rewrite (bind_returns _ _ _ _ _
             (get_completion_returns env s1 (deployment s1) (messages s1) _ _ _
                Hinit Hcreate)).
  destruct response_message as [role content calls|role content calls|repr];
    cbn [response_content response_tool_calls] in *.
  - destruct (field_get calls) as [[|tc tcs]|]; try done;
      destruct (truthy_opt_str (field_get content)); simpl;
      rewrite <- !app_assoc; done.
  - destruct calls as [[|tc tcs]|]; try done;
      destruct (truthy_opt_str content); simpl; rewrite <- !app_assoc; done.
  - simpl. rewrite <- !app_assoc. done.
Qed.

(** X12: a turn that finds no client when its loop starts (the settings
    were changed for the worse after the message was sent, or while the tool
    catalog was waited for) makes no completion call and appends nothing to
    the history: it ends normally after the "LLM Call 1..." status with the
    two error lines and the status reset. *)
Theorem turn_without_client (env : Oracle) (s : State) (defs : list json) :
  (refresh_tool_catalog env s).1 = Returns defs ->
  is_initialized (refresh_tool_catalog env s).2 = false ->
  (_process_llm_interaction env s).1 = Returns tt
  /\ completion_calls (trace (_process_llm_interaction env s).2)
     = completion_calls (trace s)
  /\ messages (_process_llm_interaction env s).2
     = messages (refresh_tool_catalog env s).2
  /\ trace (_process_llm_interaction env s).2
     = trace (refresh_tool_catalog env s).2
       ++ [UpdateStatus "LLM Call 1...";
           UpdateOutput "Error during LLM processing: LLM client is not initialized."
                        "system";
           UpdateOutput
             ("Traceback: "
              +:+ format_exc env (mkExn ValueError "LLM client is not initialized."))
             "system";
           UpdateStatus "Ready"].
Proof.
  intros Hdefs Hinit.
  assert (PreOrder same_calls) as Hpre.
  { split; [by intros ?|]. intros s1 s2 s3 H12 H23. unfold same_calls in *. congruence. }
  assert (Frame same_calls) as Hframe by (by intros ? ? ? ?).
  assert (AwaitFrame same_calls) as Hawait by (by intros ? ? ? ?).
  pose proof (relates_refresh_tool_catalog env same_calls s) as Hc.
  unfold same_calls in Hc.
  unfold _process_llm_interaction, try_finally, try_except, run_iterations, mbind, M_bind.
  destruct (refresh_tool_catalog env s) as [r s1]. simpl in *. subst r.
  unfold loop_body, get_completion, mbind, M_bind, get_state, emit, modify. simpl.
  unfold is_initialized in Hinit. destruct (llm s1); [done|]. simpl.
  rewrite !completion_calls_quiet by (repeat constructor).
  split; [done|split; [done|split; [done|]]].
  rewrite <- !app_assoc. reflexivity.
Qed.

(** ** mcp_handler.py: the connection lifecycle *)

Section Connection.

Variable env : Oracle.

Abbreviation cb := bound_handle_handler_update (only parsing).

Lemma runner_finally_run (s : State) :
  _update_callback (mcp_handler s) = Some cb ->
  runner_finally s
  = (Returns tt,
     add_events [UpdateStatus "Disconnected"]
       (set_mcp (mkMCPHandler None None (Some cb)) (tasks s)
          (add_events [UpdateOutput "MCP connection closed." "system"] s))).
Proof.
  intros Hcb.
  unfold runner_finally, clear_connection, mbind, M_bind, _log, call_update_callback, modify.
  cbn. rewrite Hcb. unfold set_connection_task, set_session. cbn.
  rewrite ?Hcb. reflexivity.
Qed.

Lemma runner_except_run (e : exn) (s : State) :
  _update_callback (mcp_handler s) = Some cb ->
  exists es,
    runner_except env e s = (if is_Exception e then Returns tt else Raises e, add_events es s)
    /\ Forall (fun ev => is_system_line ev = true) es.
Proof.
  intros Hcb. destruct e as [c msg].
  unfold runner_except, is_Exception, _log, mbind, M_bind, raise.
  destruct c; cbn [exn_class_of]; rewrite ?Hcb; cbn [call_callback add_events mcp_handler];
    rewrite ?Hcb; unfold call_callback, _handle_handler_update;
    repeat (case_bool_decide; [done|]);
    (eexists; split;
     [first [reflexivity
            |f_equal; apply state_eq; cbn; try reflexivity;
             rewrite <- ?app_assoc; try reflexivity; symmetry; apply app_nil_r]
     |by repeat constructor]).
Qed.

Lemma runner_thrown (s : State) (t : nat) (pc : runner_pc) (e : exn) :
  is_started pc = true ->
  _update_callback (mcp_handler s) = Some cb ->
  exists es,
    _mcp_session_runner env t pc (Throw e) s
    = (Completed (if is_Exception e then Finished else Cancelled),
       add_events [UpdateStatus "Disconnected"]
         (set_mcp (mkMCPHandler None None (Some cb)) (tasks s)
            (add_events (es ++ [UpdateOutput "MCP connection closed." "system"]) s)))
    /\ Forall (fun ev => is_system_line ev = true) es.
Proof.
  intros Hpc Hcb. destruct (runner_except_run e s Hcb) as (es & Hrun & Hes).
  exists es. split; [|done].
  assert (_mcp_session_runner env t pc (Throw e) s
          = match try_finally (runner_except env e) runner_finally s with
            | (Returns _, s'') => (Completed Finished, s'')
            | (Raises e', s'') => (Completed (result_of_exn e'), s'')
            end) as -> by (by destruct pc).
  unfold try_finally. rewrite Hrun, runner_finally_run by exact Hcb.
  unfold is_Exception, result_of_exn.
  destruct (exn_class_of e) eqn:Hclass; cbn [fst snd]; rewrite ?Hclass;
    f_equal; apply state_eq; cbn; try reflexivity; by rewrite <- !app_assoc.
Qed.



Lemma connect_fresh (path : string) (t : nat) (s : State) :
  _connection_task (mcp_handler s) = None ->
  _update_callback (mcp_handler s) = Some cb ->
  connect path t s
  = (Returns true,
     set_mcp (set_connection_task (Some t) (mcp_handler s))
             (<[t := Pending (NotStarted path)]> (tasks s))
             (add_events [UpdateStatus "Connecting..."; CreateTask "mcp_session_runner"] s)).
Proof.
  intros Htask Hcb.
  unfold connect, is_connected, mbind, M_bind, get_state, call_update_callback, emit, modify.
  rewrite Htask. rewrite bool_decide_eq_false_2 by (by intros [? ?]).
  assert (match session (mcp_handler s) with Some _ | _ => false end || false = false)
    as -> by (by destruct (session (mcp_handler s))).
  rewrite Hcb. cbn [fst snd call_callback _handle_handler_update].
  f_equal. apply state_eq; cbn; try reflexivity. by rewrite <- app_assoc.
Qed.

Lemma connect_busy (path : string) (t t0 : nat) (s : State) :
  _connection_task (mcp_handler s) = Some t0 ->
  _update_callback (mcp_handler s) = Some cb ->
  connect path t s
  = (Returns false,
     add_events [UpdateOutput "Already connected or connection attempt in progress." "system"]
                s).
Proof.
  intros Htask Hcb.
  unfold connect, mbind, M_bind, get_state, _log. rewrite Htask.
  rewrite (bool_decide_eq_true_2 (is_Some (Some t0))) by eauto.
  rewrite orb_true_r, Hcb. reflexivity.
Qed.

Lemma runner_start (t : nat) (path : string) (s : State) :
  _update_callback (mcp_handler s) = Some cb ->
  _mcp_session_runner env t (NotStarted path) Resume s
  = (Suspended AwaitTransport,
     add_events [UpdateOutput ("Attempting to start MCP server: " +:+ path) "system";
                 UpdateOutput ("Executing command: uv run --with mcp mcp run " +:+ path)
                              "system"] s).
Proof.
  intros Hcb. unfold _mcp_session_runner, runner_segment, mbind, M_bind, _log.
  rewrite Hcb. cbn [call_callback add_events mcp_handler fst snd]. rewrite Hcb.
  cbn [call_callback mret M_ret]. f_equal. apply state_eq; cbn; try reflexivity.
  by rewrite <- app_assoc.
Qed.

Lemma runner_transport (t : nat) (s : State) :
  _update_callback (mcp_handler s) = Some cb ->
  _mcp_session_runner env t AwaitTransport Resume s
  = (Suspended AwaitHandshake,
     set_mcp (set_session (Some (mkSession t false)) (mcp_handler s)) (tasks s)
       (add_events [UpdateOutput "MCP transport initialized." "system";
                    UpdateOutput "MCP session created." "system"] s)).
Proof.
  intros Hcb. unfold _mcp_session_runner, runner_segment, mbind, M_bind, _log, modify.
  rewrite Hcb. cbn [call_callback add_events mcp_handler fst snd]. rewrite Hcb.
  cbn [call_callback mret M_ret]. f_equal. apply state_eq; cbn; try reflexivity.
  by rewrite <- app_assoc.
Qed.

Lemma runner_handshake (t : nat) (s : State) :
  _update_callback (mcp_handler s) = Some cb ->
  _mcp_session_runner env t AwaitHandshake Resume s
  = (Suspended Idle,
     add_events [UpdateOutput "MCP session initialized successfully." "system";
                 UpdateStatus "Connected"] s).
Proof.
  intros Hcb.
  unfold _mcp_session_runner, runner_segment, mbind, M_bind, _log, call_update_callback.
  rewrite Hcb. cbn [call_callback add_events mcp_handler fst snd]. rewrite Hcb.
  cbn [call_callback mret M_ret]. f_equal. apply state_eq; cbn; try reflexivity.
  by rewrite <- app_assoc.
Qed.

Lemma disconnect_tail_run (s : State) :
  _update_callback (mcp_handler s) = Some cb ->
  disconnect_tail s
  = (Returns tt,
     add_events [UpdateStatus "Disconnected"]
       (set_mcp (mkMCPHandler None None (Some cb)) (tasks s) s)).
Proof.
  intros Hcb.
  unfold disconnect_tail, clear_connection, mbind, M_bind, call_update_callback,
    get_state, modify.
  destruct (session (mcp_handler s)) as [[i []]|];
    cbn; unfold set_connection_task, set_session; cbn; rewrite ?Hcb; reflexivity.
Qed.

Lemma completion_callback_run (r : task_result) (s : State) :
  _update_callback (mcp_handler s) = Some cb ->
  exists line,
    _handle_connection_task_completion r s
    = (Returns tt,
       add_events [UpdateStatus "Disconnected"]
         (set_mcp (mkMCPHandler None None (Some cb)) (tasks s)
            (add_events [UpdateOutput line "system"] s))).
Proof.
  intros Hcb.
  unfold _handle_connection_task_completion, try_finally, clear_connection, mbind, M_bind,
    _log, call_update_callback, get_state, modify.
  destruct r as [| |[c msg]]; [| |destruct c];
    cbn; rewrite Hcb; unfold set_connection_task, set_session; cbn; rewrite ?Hcb;
    eexists; reflexivity.
Qed.


Ltac loop_step :=
  rewrite run_loop_step; unfold run_job at 1;
  cbn [app_state ready done_callbacks next_task].

Ltac state_simpl :=
  cbn [messages llm mcp_handler deployment tasks trace clock fst snd
       add_events set_task set_mcp set_session set_connection_task
       session _connection_task _update_callback].

(** The loop resumes a task that runs to its next suspension point. *)
Lemma resumed_run (t : nat) (pc pc' : runner_pc) (s s' : State)
    (cbs : gmap nat (list job)) (n : nat) :
  tasks s !! t = Some (Pending pc) ->
  _mcp_session_runner env t pc Resume s = (Suspended pc', s') ->
  resumed env t (mkLoop s [] cbs n) = mkLoop (set_task t (Pending pc') s') [] cbs n.
Proof.
  intros Hpending Hrun. unfold resumed, enqueue.
  cbn [app_state ready done_callbacks next_task app].
  loop_step. rewrite Hpending, Hrun. reflexivity.
Qed.

(** [connect] on an idle handler, and the first step of the task it creates. *)
Lemma connect_run (path : string) (s : State) (q : list job) (cbs : gmap nat (list job))
    (n : nat) :
  _connection_task (mcp_handler s) = None ->
  _update_callback (mcp_handler s) = Some cb ->
  run_job env (ConnectJob path) (mkLoop s q cbs n)
  = mkLoop (set_mcp (set_connection_task (Some n) (mcp_handler s))
                    (<[n := Pending (NotStarted path)]> (tasks s))
                    (add_events [UpdateStatus "Connecting..."; CreateTask "mcp_session_runner"]
                                s))
           (q ++ [RunnerStep n Resume]) (<[n := [CompletionCallback n]]> cbs) (S n).
Proof.
  intros Htask Hcb. unfold run_job. cbn [app_state ready done_callbacks next_task].
  by rewrite connect_fresh.
Qed.

(** X14: connecting from the idle state. [connect] shows "Connecting..."
    and creates the lifecycle task, which starts the server; the handler is
    not connected yet. Once the transport is up the task stores the session
    and waits for the handshake: from here on [is_connected] answers true,
    before "Connected" is shown. When the handshake completes, "Connected"
    is shown and the task idles in its keep-alive loop. *)
Theorem connect_reaches_connected (l : Loop) (path : string) :
  ready l = [] ->
  session (mcp_handler (app_state l)) = None ->
  _connection_task (mcp_handler (app_state l)) = None ->
  _update_callback (mcp_handler (app_state l)) = Some bound_handle_handler_update ->
  let t := next_task l in
  let connecting := run_loop env 2 (enqueue (ConnectJob path) l) in
  let handshaking := resumed env t connecting in
  let connected := resumed env t handshaking in
  is_connected (tasks (app_state connecting)) (mcp_handler (app_state connecting)) = false
  /\ is_connected (tasks (app_state handshaking)) (mcp_handler (app_state handshaking)) = true
  /\ is_connected (tasks (app_state connected)) (mcp_handler (app_state connected)) = true
  /\ tasks (app_state connected) !! t = Some (Pending Idle)
  /\ ready connected = []
  /\ trace (app_state connected)
     = trace (app_state l)
       ++ [UpdateStatus "Connecting...";
           CreateTask "mcp_session_runner";
           UpdateOutput ("Attempting to start MCP server: " +:+ path) "system";
           UpdateOutput ("Executing command: uv run --with mcp mcp run " +:+ path) "system";
           UpdateOutput "MCP transport initialized." "system";
           UpdateOutput "MCP session created." "system";
           UpdateOutput "MCP session initialized successfully." "system";
           UpdateStatus "Connected"].
Proof.
  destruct l as [s q cbs n].
  intros Hq Hsession Htask Hcb t connecting handshaking connected.
  cbn [app_state ready done_callbacks next_task] in Hq, Hsession, Htask, Hcb, t.
  cbn [app_state]. subst q.
  assert (connecting
          = mkLoop
              (set_task n (Pending AwaitTransport)
                 (add_events
                    [UpdateOutput ("Attempting to start MCP server: " +:+ path) "system";
                     UpdateOutput ("Executing command: uv run --with mcp mcp run " +:+ path)
                                  "system"]
                    (set_mcp (set_connection_task (Some n) (mcp_handler s))
                       (<[n := Pending (NotStarted path)]> (tasks s))
                       (add_events [UpdateStatus "Connecting...";
                                    CreateTask "mcp_session_runner"] s))))
              [] (<[n := [CompletionCallback n]]> cbs) (S n)) as Hconnecting.
  { unfold connecting, enqueue. cbn [app_state ready done_callbacks next_task app].
    rewrite run_loop_step, connect_run by done. cbn [app].
    loop_step. state_simpl. rewrite lookup_insert_eq.
    rewrite runner_start by (state_simpl; exact Hcb).
    by rewrite run_loop_idle. }
  assert (exists s2, handshaking = mkLoop s2 [] (<[n := [CompletionCallback n]]> cbs) (S n)
            /\ tasks s2 !! n = Some (Pending AwaitHandshake)
            /\ mcp_handler s2 = mkMCPHandler (Some (mkSession n false)) (Some n) (Some cb)
            /\ trace s2
               = trace s
                 ++ [UpdateStatus "Connecting...";
                     CreateTask "mcp_session_runner";
                     UpdateOutput ("Attempting to start MCP server: " +:+ path) "system";
                     UpdateOutput ("Executing command: uv run --with mcp mcp run " +:+ path)
                                  "system";
                     UpdateOutput "MCP transport initialized." "system";
                     UpdateOutput "MCP session created." "system"])
    as (s2 & Hhandshaking & Htasks2 & Hhandler2 & Htrace2).
  { eexists. split.
    - unfold handshaking, t. rewrite Hconnecting.
      apply (resumed_run _ AwaitTransport AwaitHandshake).
      + state_simpl. by rewrite lookup_insert_eq.
      + apply runner_transport. state_simpl. exact Hcb.
    - state_simpl. unfold set_session, set_connection_task. state_simpl.
      rewrite lookup_insert_eq, Hcb. repeat split; try done.
      by rewrite <- !app_assoc. }
  assert (exists s3, connected = mkLoop s3 [] (<[n := [CompletionCallback n]]> cbs) (S n)
            /\ tasks s3 !! n = Some (Pending Idle)
            /\ mcp_handler s3 = mkMCPHandler (Some (mkSession n false)) (Some n) (Some cb)
            /\ trace s3
               = trace s2 ++ [UpdateOutput "MCP session initialized successfully." "system";
                              UpdateStatus "Connected"])
    as (s3 & Hconnected & Htasks3 & Hhandler3 & Htrace3).
  { eexists. split.
    - unfold connected, t. rewrite Hhandshaking.
      apply (resumed_run _ AwaitHandshake Idle); [exact Htasks2|].
      apply runner_handshake. by rewrite Hhandler2.
    - state_simpl. rewrite lookup_insert_eq. done. }
  rewrite Hconnected, Hhandshaking. rewrite Hconnecting at 1 2.
  cbn [app_state ready]. unfold is_connected, task_done.
  rewrite Hhandler2, Hhandler3. cbn [session _connection_task].
  rewrite Htasks2, Htasks3, Htrace3, Htrace2.
  state_simpl. rewrite Hsession, <- !app_assoc. done.
Qed.


(** X15: two clicks on "Connect" start one lifecycle task. The second
    [connect] finds the task reference set, logs "Already connected or
    connection attempt in progress." and creates nothing; the task of the
    first one runs on to its first suspension point. *)
Theorem connect_twice_starts_one_task (l : Loop) (path path' : string) :
  ready l = [] ->
  _connection_task (mcp_handler (app_state l)) = None ->
  _update_callback (mcp_handler (app_state l)) = Some bound_handle_handler_update ->
  let l' := run_loop env 3 (enqueue (ConnectJob path') (enqueue (ConnectJob path) l)) in
  ready l' = []
  /\ next_task l' = S (next_task l)
  /\ _connection_task (mcp_handler (app_state l')) = Some (next_task l)
  /\ tasks (app_state l') = <[next_task l := Pending AwaitTransport]> (tasks (app_state l))
  /\ trace (app_state l')
     = trace (app_state l)
       ++ [UpdateStatus "Connecting...";
           CreateTask "mcp_session_runner";
           UpdateOutput "Already connected or connection attempt in progress." "system";
           UpdateOutput ("Attempting to start MCP server: " +:+ path) "system";
           UpdateOutput ("Executing command: uv run --with mcp mcp run " +:+ path) "system"].
Proof.
  destruct l as [s q cbs n]. intros Hq Htask Hcb l'.
  cbn [app_state ready done_callbacks next_task] in Hq, Htask, Hcb.
  cbn [app_state next_task]. subst q.
  assert (l'
          = mkLoop
              (set_task n (Pending AwaitTransport)
                 (add_events
                    [UpdateOutput ("Attempting to start MCP server: " +:+ path) "system";
                     UpdateOutput ("Executing command: uv run --with mcp mcp run " +:+ path)
                                  "system"]
                    (add_events
                       [UpdateOutput "Already connected or connection attempt in progress."
                                     "system"]
                       (set_mcp (set_connection_task (Some n) (mcp_handler s))
                          (<[n := Pending (NotStarted path)]> (tasks s))
                          (add_events [UpdateStatus "Connecting...";
                                       CreateTask "mcp_session_runner"] s)))))
              [] (<[n := [CompletionCallback n]]> cbs) (S n)) as ->.
  { unfold l', enqueue. cbn [app_state ready done_callbacks next_task app].
    rewrite run_loop_step, connect_run by done. cbn [app].
    loop_step. rewrite (connect_busy _ _ n) by (state_simpl; done).
    loop_step. state_simpl. rewrite lookup_insert_eq.
    rewrite runner_start by (state_simpl; exact Hcb).
    by rewrite run_loop_idle. }
  cbn [app_state ready next_task]. state_simpl.
  rewrite insert_insert_eq, <- !app_assoc. done.
Qed.

(** X16: [disconnect] with no lifecycle task to wait for (none was
    created, or the one referred to has ended) cancels nothing: it clears
    the session handle and the task reference and shows "Disconnected"
    once. *)
Theorem disconnect_without_task (l : Loop) :
  ready l = [] ->
  match _connection_task (mcp_handler (app_state l)) with
  | Some t => task_done (tasks (app_state l)) t
  | None => true
  end = true ->
  _update_callback (mcp_handler (app_state l)) = Some bound_handle_handler_update ->
  let l' := run_loop env 1 (enqueue DisconnectJob l) in
  ready l' = []
  /\ session (mcp_handler (app_state l')) = None
  /\ _connection_task (mcp_handler (app_state l')) = None
  /\ tasks (app_state l') = tasks (app_state l)
  /\ trace (app_state l') = trace (app_state l) ++ [UpdateStatus "Disconnected"].
Proof.
  destruct l as [s q cbs n]. intros Hq Hdone Hcb l'.
  cbn [app_state ready done_callbacks next_task] in Hq, Hdone, Hcb.
  cbn [app_state]. subst q.
  assert (disconnect_begin s = (Returns None, s)) as Hbegin.
  { unfold disconnect_begin, mbind, M_bind, get_state.
    destruct (_connection_task (mcp_handler s)) as [t|]; [|done].
    by rewrite Hdone. }
  assert (l' = mkLoop (add_events [UpdateStatus "Disconnected"]
                         (set_mcp (mkMCPHandler None None (Some cb)) (tasks s) s))
                      [] cbs n) as ->.
  { unfold l', enqueue. cbn [app_state ready done_callbacks next_task app].
    loop_step. rewrite Hbegin, disconnect_tail_run by exact Hcb.
    by rewrite run_loop_idle. }
  done.
Qed.


(** X17: "Connect" and "Disconnect" clicked before the loop runs either.
    [disconnect] cancels the lifecycle task before its first step, so its
    coroutine never starts: the server is not launched, the [finally] block
    of the task does not run, and "Disconnected" is shown twice, by the done
    callback and by [disconnect]. *)
Theorem connect_then_disconnect_at_once (l : Loop) (path : string) :
  ready l = [] ->
  _connection_task (mcp_handler (app_state l)) = None ->
  _update_callback (mcp_handler (app_state l)) = Some bound_handle_handler_update ->
  let t := next_task l in
  let l' := run_loop env 5 (enqueue DisconnectJob (enqueue (ConnectJob path) l)) in
  ready l' = []
  /\ session (mcp_handler (app_state l')) = None
  /\ _connection_task (mcp_handler (app_state l')) = None
  /\ tasks (app_state l') !! t = Some (Done Cancelled)
  /\ trace (app_state l')
     = trace (app_state l)
       ++ [UpdateStatus "Connecting...";
           CreateTask "mcp_session_runner";
           CancelTask t;
           UpdateOutput "MCP connection task was cancelled." "system";
           UpdateStatus "Disconnected";
           UpdateOutput "MCP connection cancelled." "system";
           UpdateStatus "Disconnected"].
Proof.
  destruct l as [s q cbs n]. intros Hq Htask Hcb t l'.
  cbn [app_state ready done_callbacks next_task] in Hq, Htask, Hcb, t.
  cbn [app_state]. subst q.
  eassert (l' = _) as ->.
  { unfold l', enqueue. cbn [app_state ready done_callbacks next_task app].
    rewrite run_loop_step, connect_run by done. cbn [app].
    rewrite run_loop_step.
    rewrite (disconnect_job_cancels env _ _ _ _ n (NotStarted path))
      by (state_simpl; by rewrite ?lookup_insert_eq).
    rewrite lookup_insert_eq. cbn [request_cancel default from_option id app].
    rewrite bool_decide_eq_true_2 by done.
    loop_step. state_simpl. rewrite lookup_insert_eq.
    cbn [_mcp_session_runner result_of_exn exn_class_of fst snd].
    rewrite lookup_insert_eq. cbn [default from_option id app].
    loop_step. state_simpl. rewrite lookup_insert_eq.
    rewrite completion_callback_cancelled by (state_simpl; exact Hcb).
    loop_step. state_simpl. rewrite lookup_insert_eq.
    rewrite disconnect_resume_cancelled by reflexivity.
    rewrite run_loop_idle. reflexivity. }
  unfold t. cbn [app_state ready]. state_simpl.
  rewrite lookup_insert_eq, <- !app_assoc. done.
Qed.


Lemma last_two {A} (l : list A) (a b : A) : last (l ++ [a; b]) = Some b.
Proof. change (l ++ [a; b]) with (l ++ [a] ++ [b]). by rewrite app_assoc, last_snoc. Qed.

Lemma runner_cancelled (s : State) (t : nat) (pc : runner_pc) (msg : string) :
  is_started pc = true ->
  _update_callback (mcp_handler s) = Some cb ->
  _mcp_session_runner env t pc (Throw (mkExn CancelledError msg)) s
  = (Completed Cancelled,
     add_events [UpdateStatus "Disconnected"]
       (set_mcp (mkMCPHandler None None (Some cb)) (tasks s)
          (add_events [UpdateOutput "MCP connection closed." "system"] s))).
Proof.
  intros Hpc Hcb. destruct pc; [done|..];
    apply (runner_cancelled_in_handshake env s t msg Hcb).
Qed.

(** X18: [disconnect] while the lifecycle task waits at any point inside
    its [try] block, the established connection included: the task is
    cancelled and awaited, the session handle and the task reference are
    cleared, and "Disconnected" is shown by the [finally] block of the task,
    by its done callback and by [disconnect], in this order. *)
Theorem disconnect_while_running (l : Loop) (t : nat) (pc : runner_pc) :
  ready l = [] ->
  _connection_task (mcp_handler (app_state l)) = Some t ->
  tasks (app_state l) !! t = Some (Pending pc) ->
  is_started pc = true ->
  _update_callback (mcp_handler (app_state l)) = Some bound_handle_handler_update ->
  done_callbacks l !! t = Some [CompletionCallback t] ->
  let l' := run_loop env 4 (enqueue DisconnectJob l) in
  ready l' = []
  /\ session (mcp_handler (app_state l')) = None
  /\ _connection_task (mcp_handler (app_state l')) = None
  /\ tasks (app_state l') !! t = Some (Done Cancelled)
  /\ trace (app_state l')
     = trace (app_state l)
       ++ [CancelTask t;
           UpdateOutput "MCP connection closed." "system";
           UpdateStatus "Disconnected";
           UpdateOutput "MCP connection task was cancelled." "system";
           UpdateStatus "Disconnected";
           UpdateOutput "MCP connection cancelled." "system";
           UpdateStatus "Disconnected"].
Proof.
  destruct l as [s q cbs n]. intros Hq Htask Hpending Hpc Hcb Hdone l'.
  cbn [app_state ready done_callbacks next_task] in Hq, Htask, Hpending, Hcb, Hdone.
  cbn [app_state]. subst q.
  eassert (l' = _) as ->.
  { unfold l', enqueue. cbn [app_state ready done_callbacks next_task app].
    rewrite run_loop_step, (disconnect_job_cancels env s [] cbs n t _ Htask Hpending).
    rewrite Hdone. cbn [request_cancel default from_option id app].
    loop_step. state_simpl. rewrite Hpending.
    rewrite runner_cancelled by (state_simpl; done).
    rewrite lookup_insert_eq. cbn [default from_option id app].
    loop_step. state_simpl. rewrite lookup_insert_eq.
    rewrite completion_callback_cancelled by reflexivity.
    loop_step. state_simpl. rewrite lookup_insert_eq.
    rewrite disconnect_resume_cancelled by reflexivity.
    rewrite run_loop_idle. reflexivity. }
  cbn [app_state ready]. state_simpl.
  rewrite lookup_insert_eq, <- !app_assoc. done.
Qed.

(** X19: the done callback of an ended lifecycle task clears the task
    reference without looking at which task it holds. When the connection
    ends with an exception and a [connect] is already queued, [connect]
    runs between the end of the old task and its done callback: it creates
    a new task, and the callback then clears the reference to it. The new
    task goes on to show "Connected" and to idle, while [is_connected]
    answers false. *)
Theorem late_completion_callback_forgets_new_task (l : Loop) (t : nat) (pc : runner_pc)
    (e : exn) (path : string) :
  ready l = [] ->
  _connection_task (mcp_handler (app_state l)) = Some t ->
  tasks (app_state l) !! t = Some (Pending pc) ->
  is_started pc = true ->
  _update_callback (mcp_handler (app_state l)) = Some bound_handle_handler_update ->
  done_callbacks l !! t = Some [CompletionCallback t] ->
  next_task l <> t ->
  is_Exception e = true ->
  let t' := next_task l in
  let l1 := run_loop env 4 (enqueue (ConnectJob path) (enqueue (RunnerStep t (Throw e)) l)) in
  let l2 := resumed env t' (resumed env t' l1) in
  ready l2 = []
  /\ tasks (app_state l2) !! t = Some (Done Finished)
  /\ tasks (app_state l2) !! t' = Some (Pending Idle)
  /\ last (trace (app_state l2)) = Some (UpdateStatus "Connected")
  /\ session (mcp_handler (app_state l2)) = Some (mkSession t' false)
  /\ _connection_task (mcp_handler (app_state l2)) = None
  /\ is_connected (tasks (app_state l2)) (mcp_handler (app_state l2)) = false.
Proof.
  destruct l as [s q cbs n]. intros Hq Htask Hpending Hpc Hcb Hdone Hfresh He t' l1 l2.
  cbn [app_state ready done_callbacks next_task] in Hq, Htask, Hpending, Hcb, Hdone, Hfresh, t'.
  cbn [app_state]. subst q.
  destruct (runner_thrown s t pc e Hpc Hcb) as (es & Hthrown & _).
  rewrite He in Hthrown.
  set (s1 := set_task t (Done Finished)
               (add_events [UpdateStatus "Disconnected"]
                  (set_mcp (mkMCPHandler None None (Some cb)) (tasks s)
                     (add_events (es ++ [UpdateOutput "MCP connection closed." "system"]) s)))).
  set (s2 := set_mcp (set_connection_task (Some n) (mcp_handler s1))
               (<[n := Pending (NotStarted path)]> (tasks s1))
               (add_events [UpdateStatus "Connecting..."; CreateTask "mcp_session_runner"] s1)).
  destruct (completion_callback_run Finished s2 eq_refl) as (line & Hcallback).
  eassert (l1 = _) as Hl1.
  { unfold l1, enqueue. cbn [app_state ready done_callbacks next_task app].
    loop_step. rewrite Hpending, Hthrown, Hdone. cbn [default from_option id app].
    fold s1. rewrite run_loop_step, connect_run by done. fold s2. cbn [app].
    loop_step.
    assert (tasks s2 !! t = Some (Done Finished)) as ->.
    { unfold s2, s1. state_simpl. rewrite lookup_insert_ne by done.
      by rewrite lookup_insert_eq. }
    rewrite Hcallback. cbn [snd].
    loop_step. state_simpl.
    assert (tasks s2 !! n = Some (Pending (NotStarted path))) as ->.
    { unfold s2. state_simpl. by rewrite lookup_insert_eq. }
    rewrite runner_start by reflexivity.
    rewrite run_loop_idle. reflexivity. }
  eassert (resumed env t' l1 = _) as Hr1.
  { rewrite Hl1. unfold t'. eapply (resumed_run _ AwaitTransport AwaitHandshake).
    - state_simpl. by rewrite lookup_insert_eq.
    - apply runner_transport. reflexivity. }
  eassert (l2 = _) as ->.
  { unfold l2. rewrite Hr1. unfold t'. eapply (resumed_run _ AwaitHandshake Idle).
    - state_simpl. by rewrite lookup_insert_eq.
    - apply runner_handshake. reflexivity. }
  unfold t'. cbn [app_state ready]. unfold is_connected. state_simpl.
  rewrite lookup_insert_eq.
  rewrite !(lookup_insert_ne _ n t) by done.
  assert (tasks s2 !! t = Some (Done Finished)) as ->.
  { unfold s2, s1. state_simpl. rewrite lookup_insert_ne by done.
    by rewrite lookup_insert_eq. }
  repeat split; try done.
  apply last_two.
Qed.

End Connection.

(** ** controller.py: what a turn sends to the model *)

Section Requests.

Variable env : Oracle.

Lemma observed_requests (P : list message -> Prop) (es : list event) :
  Forall P (omap observed_history es) ->
  Forall (fun req => P (request_messages req)) (requests es).
Proof.
  induction es as [|e es IH]; [constructor|].
  destruct e; simpl; try exact IH.
  - intros [? ?]%Forall_cons. constructor; [done|by apply IH].
  - intros [? ?]%Forall_cons. by apply IH.
Qed.

Lemma observed_snapshots (P : list message -> Prop) (es : list event) :
  Forall P (omap observed_history es) -> Forall P (snapshots es).
Proof.
  induction es as [|e es IH]; [constructor|].
  destruct e; simpl; try exact IH.
  - intros [? ?]%Forall_cons. by apply IH.
  - intros [? ?]%Forall_cons. constructor; [done|by apply IH].
Qed.

Lemma observed_elsewhere (es : list event) : omap observed_history (Elsewhere <$> es) = [].
Proof. induction es as [|e es IH]; [done|]. exact IH. Qed.

#[local] Instance carries_history_preorder : PreOrder carries_history.
Proof.
  split.
  - intros s. split; [done|]. exists []. split; [by rewrite app_nil_r|constructor].
  - intros s1 s2 s3 (H12 & es12 & Htr12 & Hreq12) (H23 & es23 & Htr23 & Hreq23).
    split; [by etransitivity|]. exists (es12 ++ es23). split.
    + by rewrite Htr23, Htr12, app_assoc.
    + rewrite omap_app. apply Forall_app. split.
      * eapply Forall_impl; [exact Hreq12|]. intros h [? ?]. split; [done|by etransitivity].
      * eapply Forall_impl; [exact Hreq23|]. intros h [? ?]. split; [by etransitivity|done].
Qed.

Lemma sends_quiet (s s' : State) (es : list event) :
  messages s' = messages s -> trace s' = trace s ++ es ->
  omap observed_history es = [] ->
  carries_history s s'.
Proof.
  intros Hm Htr Hreq. split; [by rewrite Hm|]. exists es. split; [done|].
  rewrite Hreq. constructor.
Qed.

Lemma sends_emit (e : event) :
  observed_history e = None -> relates carries_history (emit e).
Proof. intros He s. apply (sends_quiet _ _ [e]); [done..|]. simpl. by rewrite He. Qed.

Lemma sends_log (message role : string) : relates carries_history (_log message role).
Proof.
  intros s. unfold _log. destruct (_update_callback _) as [[]|]; simpl.
  - eapply sends_quiet; [done..|]. unfold _handle_handler_update. by case_bool_decide.
  - by eapply sends_quiet.
Qed.

Lemma sends_await_io {A} (e : event) (answer : nat -> outcome A) :
  observed_history e = None -> relates carries_history (await_io env e answer).
Proof.
  intros He s. unfold await_io. simpl. split; [by apply prefix_app_r|].
  exists ([e; Yields (suspended_view s)]
          ++ (Elsewhere <$> events_elsewhere
                (other_tasks env (clock s) (add_events [e; Yields (suspended_view s)] s)))).
  split; [by rewrite app_assoc|].
  rewrite omap_app, observed_elsewhere, app_nil_r. simpl. rewrite He.
  apply Forall_cons_2; [|apply Forall_nil_2]. split; [reflexivity|by apply prefix_app_r].
Qed.

Lemma sends_lift_outcome {A} (o : outcome A) : relates carries_history (lift_outcome o).
Proof. intros s. reflexivity. Qed.

Lemma sends_append (m : message) :
  relates carries_history (modify (set_messages (fun l => l ++ [m]))).
Proof.
  intros s. split; [by apply prefix_app_r|]. exists []. split; [by rewrite app_nil_r|].
  constructor.
Qed.

Ltac sends_step :=
  first
    [ apply relates_ret; apply _
    | apply relates_raise; apply _
    | apply relates_get_state; apply _
    | apply sends_emit; reflexivity
    | apply sends_log
    | apply sends_await_io; reflexivity
    | apply sends_lift_outcome
    | apply sends_append
    | apply relates_bind; [apply _ .. | idtac | intros ?]
    | apply relates_try_except; [apply _ .. | idtac | intros ?]
    | apply relates_try_finally; [apply _ .. | idtac | idtac]
    | apply relates_for_each; [apply _ .. | intros ?]
    | progress case_match ].

Lemma sends_list_tools (log : bool) : relates carries_history (list_tools env log).
Proof. unfold list_tools. repeat sends_step. Qed.

Lemma sends_call_tool (name : string) (arguments : json) :
  relates carries_history (call_tool env name arguments).
Proof. unfold call_tool. repeat sends_step. Qed.

Lemma sends_refresh_tool_catalog : relates carries_history (refresh_tool_catalog env).
Proof. unfold refresh_tool_catalog. repeat first [apply sends_list_tools | sends_step]. Qed.

Lemma sends_run_tool_call (tc : tool_call) : relates carries_history (run_tool_call env tc).
Proof. unfold run_tool_call. repeat first [apply sends_call_tool | sends_step]. Qed.

Lemma sends_execute_tool_calls (tool_calls : list tool_call) :
  relates carries_history (execute_tool_calls env tool_calls).
Proof. unfold execute_tool_calls. repeat first [apply sends_run_tool_call | sends_step]. Qed.

Lemma sends_append_assistant_message (response_dump : message) (content : option string) :
  relates carries_history (append_assistant_message response_dump content).
Proof. unfold append_assistant_message. repeat sends_step. Qed.

(** A completion call made with the history of the moment. *)
Lemma sends_get_completion (s : State) (deployment : string) (tools : option (list json)) :
  carries_history s (get_completion env deployment (messages s) tools s).2.
Proof.
  unfold get_completion, mbind, M_bind, get_state.
  destruct (llm s); [|reflexivity]. unfold try_except, blocking_io, mbind, M_bind.
  assert (carries_history s
            (tick (add_events
                     [CompletionsCreate (completion_request_of deployment (messages s) tools)]
                     s))) as Hcall.
  { split; [done|]. eexists. split; [reflexivity|]. repeat constructor.
    - by destruct tools as [[|]|].
    - by destruct tools as [[|]|]. }
  cbn [clock add_events].
  destruct (completions_create env (clock s) _) as [[|choice choices]|e];
    cbn [fst snd raise mret M_ret]; try done.
  - etransitivity; [exact Hcall|]. case_match; [|reflexivity].
    repeat sends_step.
  - etransitivity; [exact Hcall|]. case_match; [|reflexivity].
    repeat sends_step.
Qed.

Lemma sends_loop_body (defs : list json) (iterations : nat) :
  relates carries_history (loop_body env defs iterations).
Proof.
  unfold loop_body. apply relates_bind; [apply _|by repeat sends_step|]. intros _.
  intros s. unfold mbind at 1, M_bind at 1, get_state at 1. cbn [fst snd].
  unfold mbind at 1, M_bind at 1.
  pose proof (sends_get_completion s (deployment s)
                (if truthy_list defs then Some defs else None)) as Hcompletion.
  destruct (get_completion env (deployment s) (messages s) _ s) as [[response|e] s1];
    cbn [fst snd] in *; [|done].
  etransitivity; [exact Hcompletion|]. revert s1 Hcompletion. intros s1 _. revert s1.
  change (relates carries_history
    (match response with
     | Opaque repr =>
         emit (UpdateOutput ("Failed to get LLM response: " +:+ repr) "system");;
         mret Break
     | _ =>
         let response_dump := response_dump_of response in
         let content := response_content response in
         (if truthy_opt_str content
          then emit (UpdateOutput (default EmptyString content) "assistant")
          else mret tt);;
         match response_tool_calls response with
         | Some ((_ :: _) as tool_calls) =>
             c ← append_assistant_message response_dump content;
             match c with
             | Break => mret Break
             | Continue => execute_tool_calls env tool_calls
             end
         | _ =>
             (if negb (truthy_opt_str content)
              then emit (UpdateOutput "(No text response and no tool call)" "system")
              else mret tt);;
             mret Break
         end
     end)).
  repeat first [ apply sends_execute_tool_calls
               | apply sends_append_assistant_message
               | sends_step ].
Qed.

Lemma sends_while_loop (fuel : nat) (defs : list json) (iterations : nat) :
  relates carries_history (while_loop env fuel defs iterations).
Proof.
  revert iterations. induction fuel as [|fuel IH]; intros iterations; simpl.
  - repeat sends_step.
  - case_bool_decide; [|by repeat sends_step].
    apply relates_bind; [apply _|apply sends_loop_body|].
    intros [|]; [apply IH|by repeat sends_step].
Qed.

Lemma sends_process : relates carries_history (_process_llm_interaction env).
Proof.
  unfold _process_llm_interaction, run_iterations.
  repeat first [apply sends_while_loop | apply sends_refresh_tool_catalog | sends_step].
Qed.

(** X20: every completion request of a turn carries the conversation so
    far: its [messages] extend the history the turn started with (the
    system prompt and the user's message included) and are extended by the
    history the turn ends with. *)
Theorem requests_carry_the_history (s : State) :
  exists es,
    trace (_process_llm_interaction env s).2 = trace s ++ es
    /\ Forall (fun req =>
                 messages s `prefix_of` request_messages req
                 /\ request_messages req `prefix_of` messages (_process_llm_interaction env s).2)
              (requests es).
Proof.
  destruct (sends_process s) as (_ & es & Htrace & Hall).
  exists es. split; [done|].
  exact (observed_requests
           (fun h => messages s `prefix_of` h
                     /\ h `prefix_of` messages (_process_llm_interaction env s).2)
           es Hall).
Qed.

Lemma sends_list_mcp_tools : relates carries_history (list_mcp_tools env).
Proof. unfold list_mcp_tools. repeat first [apply sends_list_tools | sends_step]. Qed.

End Requests.

(** ** The history over the life of the application *)

(** What an operation that only appends to the history does to the
    history, the client, the deployment name, the handler and the tasks is
    an interference: so the operations a callback of the loop can run while
    a coroutine is suspended are covered by what [await_io] lets happen. *)
Lemma grown_history_interferes (s s' : State) :
  messages s `prefix_of` messages s' ->
  exists i,
    messages (interfere i s) = messages s'
    /\ llm (interfere i s) = llm s'
    /\ deployment (interfere i s) = deployment s'
    /\ mcp_handler (interfere i s) = mcp_handler s'
    /\ tasks (interfere i s) = tasks s'.
Proof.
  intros [k Hk].
  exists (mkInterference k (llm s') (deployment s') (mcp_handler s') (tasks s') []).
  simpl. by rewrite Hk.
Qed.

Lemma callbacks_interfere (env : Oracle) (s s' : State) :
  (exists user_input, s' = (send_message_to_llm user_input s).2)
  \/ (exists api_key endpoint gui_deployment,
        s' = (update_azure_config env api_key endpoint gui_deployment s).2)
  \/ s' = (_process_llm_interaction env s).2
  \/ s' = (list_mcp_tools env s).2
  \/ (exists j l, s = app_state l /\ s' = app_state (run_job env j l)) ->
  exists i,
    messages (interfere i s) = messages s'
    /\ llm (interfere i s) = llm s'
    /\ deployment (interfere i s) = deployment s'
    /\ mcp_handler (interfere i s) = mcp_handler s'
    /\ tasks (interfere i s) = tasks s'.
Proof.
  intros Hop. apply grown_history_interferes.
  destruct Hop as [[U ->]|[(k & e & d & ->)|[->|[->|(j & l & -> & ->)]]]].
  - apply history_grows_send_message.
  - pose proof (same_history_update_azure_config env k e d s) as H.
    unfold same_history in H. by rewrite H.
  - apply history_grows_process.
  - apply history_grows_list_mcp_tools.
  - pose proof (same_history_run_job env j l) as H.
    unfold same_history in H. by rewrite H.
Qed.

Lemma suspended_states_snapshots (tr es : list event) (s' : State) :
  s' ∈ suspended_states tr es -> messages s' ∈ snapshots es.
Proof.
  revert tr. induction es as [|e es IH]; intros tr; simpl; [by intros ?%elem_of_nil|].
  destruct e; simpl; try apply IH.
  intros [->|H]%elem_of_cons; [by left|]. right. by eapply IH.
Qed.

Lemma suspended_history_grown {A} (env : Oracle) (m : M A) (s s' : State) :
  relates carries_history m ->
  s' ∈ suspended_states (trace s) (drop (length (trace s)) (trace (m s).2)) ->
  messages s `prefix_of` messages s'.
Proof.
  intros Hm Hs'. destruct (Hm s) as (_ & es & Htrace & Hall).
  rewrite Htrace, drop_app_length in Hs'.
  apply suspended_states_snapshots in Hs'.
  apply observed_snapshots in Hall. rewrite Forall_forall in Hall.
  by destruct (Hall _ Hs').
Qed.

(** C9: in every state the application can reach, the states in which a
    turn is suspended at an [await] included, the history starts with the
    system-prompt message (so it is never empty); neither
    [send_message_to_llm], the one operation that removes a message, nor
    [_process_llm_interaction], with whatever the other callbacks of the
    loop append while it waits, removes or changes any message the history
    already held: the old history is a prefix of the new one. The histories
    a turn (or [list_tools], started by the button) leaves to the other
    callbacks at its [await]s start with the system-prompt message as
    well. *)
Theorem history_keeps_system_prompt (s : State) :
  reachable s ->
  (exists rest, messages s = system_message :: rest)
  /\ (forall user_input,
        messages s `prefix_of` messages (send_message_to_llm user_input s).2)
  /\ (forall env, messages s `prefix_of` messages (_process_llm_interaction env s).2)
  /\ (forall env h,
        h ∈ snapshots (drop (length (trace s)) (trace (_process_llm_interaction env s).2))
        \/ h ∈ snapshots (drop (length (trace s)) (trace (list_mcp_tools env s).2)) ->
        exists rest, h = system_message :: rest).
Proof.
  intros Hreach.
  assert (exists rest, messages s = system_message :: rest) as Hs.
  { induction Hreach as [env api_key endpoint dep
                        | s user_input _ IH
                        | env s _ IH
                        | env s api_key endpoint dep _ IH
                        | env s _ IH
                        | env j l _ IH
                        | env s s' _ IH Hs'
                        | env s s' _ IH Hs'].
    - exists []. unfold AppController_init.
      apply (same_history_initialize_llm_from_config env api_key endpoint (fresh_state dep)).
    - eapply system_prompt_kept; [exact IH|]. apply history_grows_send_message.
    - eapply system_prompt_kept; [exact IH|]. apply history_grows_process.
    - eapply system_prompt_same; [exact IH|]. apply same_history_update_azure_config.
    - eapply system_prompt_kept; [exact IH|]. apply history_grows_list_mcp_tools.
    - eapply system_prompt_same; [exact IH|]. apply same_history_run_job.
    - eapply system_prompt_kept; [exact IH|].
      exact (suspended_history_grown env _ _ _ (sends_process env) Hs').
    - eapply system_prompt_kept; [exact IH|].
      exact (suspended_history_grown env _ _ _ (sends_list_mcp_tools env) Hs'). }
  split; [exact Hs|split; [|split]].
  - intros user_input. apply history_grows_send_message.
  - intros env. apply history_grows_process.
  - intros env h [Hh|Hh].
    + destruct (sends_process env s) as (_ & es & Htrace & Hall).
      rewrite Htrace, drop_app_length in Hh.
      apply observed_snapshots in Hall. rewrite Forall_forall in Hall.
      destruct (Hall h Hh) as [Hprefix _]. by eapply system_prompt_prefix.
    + destruct (sends_list_mcp_tools env s) as (_ & es & Htrace & Hall).
      rewrite Htrace, drop_app_length in Hh.
      apply observed_snapshots in Hall. rewrite Forall_forall in Hall.
      destruct (Hall h Hh) as [Hprefix _]. by eapply system_prompt_prefix.
Qed.

(** ** These properties on concrete inputs *)

Lemma initialize_flag_tells_state_witness :
  (initialize example_outage (Some EmptyString) (Some "https://example.invalid")
              example_state).1
  = Returns (false, "Missing API key or endpoint")
  /\ llm (initialize example_outage (Some EmptyString) (Some "https://example.invalid")
                     example_state).2 = None.
Proof.
  apply (proj2 (initialize_flag_tells_state example_outage (Some EmptyString)
                  (Some "https://example.invalid") example_state)).
  left. reflexivity.
Defined.

Lemma failed_reconfiguration_blocks_turn_witness :
  messages (send_message_to_llm "hello"
              (update_azure_config example_outage EmptyString "https://example.invalid"
                                   "gpt" example_state).2).2
  = messages example_state.
Proof.
  apply (proj1 (proj2 (failed_reconfiguration_blocks_turn example_outage example_state
                         EmptyString "https://example.invalid" "gpt" "hello"
                         (or_introl eq_refl) eq_refl))).
Defined.

Lemma list_tools_result_witness :
  (list_tools example_outage false example_connected_state).1 = Returns None
  /\ network_events
       (drop (length (trace example_connected_state))
             (trace (list_tools example_outage false example_connected_state).2))
     = [SessionListTools].
Proof. apply (list_tools_result example_outage example_connected_state false). reflexivity. Defined.

Lemma call_tool_result_shape_witness :
  (call_tool example_busy_turn "search" (JDict []) example_connected_state).1
  = Returns (JList [text_dict "Sunny."])
  /\ (call_tool example_picture "search" (JDict []) example_connected_state).1
     = Returns (error_payload "module 'mcp.types' has no attribute 'JsonContent'").
Proof.
  split.
  - apply (proj1 (proj2 (call_tool_result_shape example_busy_turn example_connected_state
                           "search" (JDict []) [TextContent "Sunny."] eq_refl eq_refl))
             ["Sunny."]).
    reflexivity.
  - apply (proj2 (proj2 (call_tool_result_shape example_picture example_connected_state
                           "search" (JDict [])
                           [TextContent "A map of Paris."; ImageContent None]
                           eq_refl eq_refl)));
      reflexivity.
Defined.

Lemma format_tools_for_openai_shape_witness :
  exists parameters,
    format_tools_for_openai (Some [mkTool "ping" None None]) !! 0%nat
    = Some (JDict [("type", JStr "function");
                   ("function",
                    JDict [("name", JStr "ping");
                           ("description", JNull);
                           ("parameters", parameters)])])
    /\ is_dict parameters = true
    /\ (forall schema, inputSchema (mkTool "ping" None None) = Some schema ->
          is_dict schema = true -> parameters = schema).
Proof.
  apply (proj2 (format_tools_for_openai_shape [mkTool "ping" None None])
           0%nat (mkTool "ping" None None)).
  reflexivity.
Defined.

Lemma tool_call_not_made_witness :
  (run_tool_call example_outage (mkToolCall "call_0" "search" "not json")
                 example_connected_state).1 = Returns tt
  /\ run_tool_call example_outage (mkToolCall "call_0" "search" example_deep_arguments)
                   example_connected_state
     = (Raises (mkExn RecursionError
                  "maximum recursion depth exceeded while decoding a JSON array from a unicode string"),
        example_connected_state)
  /\ (run_tool_call example_outage (mkToolCall "call_0" "search" "{}") example_state).1
     = Returns tt.
Proof.
  split; [|split].
  - apply (proj1 (proj1 (tool_call_not_made example_outage
                           (mkToolCall "call_0" "search" "not json")
                           example_connected_state)
                    (mkExn JSONDecodeError "Expecting value: line 1 column 1 (char 0)")
                    eq_refl eq_refl)).
  - apply (proj1 (proj2 (tool_call_not_made example_outage
                           (mkToolCall "call_0" "search" example_deep_arguments)
                           example_connected_state))
             (mkExn RecursionError
                "maximum recursion depth exceeded while decoding a JSON array from a unicode string"));
      [vm_compute; reflexivity|discriminate].
  - apply (proj1 (proj2 (proj2 (tool_call_not_made example_outage
                                  (mkToolCall "call_0" "search" "{}") example_state))
                    (JDict []) eq_refl eq_refl)).
Defined.

Lemma answer_without_tool_calls_ends_loop_witness :
  messages (loop_body example_direct_answer [] 1 example_turn_state).2
  = messages example_turn_state.
Proof.
  apply (proj1 (proj2 (answer_without_tool_calls_ends_loop example_direct_answer
                         example_turn_state [] 1 example_final_answer []
                         eq_refl eq_refl eq_refl))).
Defined.

Lemma turn_without_client_witness :
  messages (_process_llm_interaction
              (with_other_tasks (fun _ => example_user_sends "And in Rome?") example_outage)
              (set_llm None example_connected_turn_state)).2
  = messages (refresh_tool_catalog
                (with_other_tasks (fun _ => example_user_sends "And in Rome?") example_outage)
                (set_llm None example_connected_turn_state)).2.
Proof.
  apply (proj1 (proj2 (proj2 (turn_without_client
                                (with_other_tasks (fun _ => example_user_sends "And in Rome?")
                                                  example_outage)
                                (set_llm None example_connected_turn_state) []
                                eq_refl eq_refl)))).
Defined.


Lemma connect_reaches_connected_witness :
  is_connected
    (tasks (app_state (resumed example_outage 0
                         (run_loop example_outage 2
                            (enqueue (ConnectJob "server.py") example_loop)))))
    (mcp_handler (app_state (resumed example_outage 0
                               (run_loop example_outage 2
                                  (enqueue (ConnectJob "server.py") example_loop)))))
  = true.
Proof.
  apply (proj1 (proj2 (connect_reaches_connected example_outage example_loop "server.py"
                         eq_refl eq_refl eq_refl eq_refl))).
Defined.

Lemma connect_twice_starts_one_task_witness :
  next_task (run_loop example_outage 3
               (enqueue (ConnectJob "other.py")
                  (enqueue (ConnectJob "server.py") example_loop)))
  = 1%nat.
Proof.
  apply (proj1 (proj2 (connect_twice_starts_one_task example_outage example_loop
                         "server.py" "other.py" eq_refl eq_refl eq_refl))).
Defined.

Lemma disconnect_without_task_witness :
  trace (app_state (run_loop example_outage 1 (enqueue DisconnectJob example_loop)))
  = trace (app_state example_loop) ++ [UpdateStatus "Disconnected"].
Proof.
  apply (proj2 (proj2 (proj2 (proj2 (disconnect_without_task example_outage example_loop
                                       eq_refl eq_refl eq_refl))))).
Defined.

Lemma connect_then_disconnect_at_once_witness :
  tasks (app_state (run_loop example_outage 5
                      (enqueue DisconnectJob
                         (enqueue (ConnectJob "server.py") example_loop)))) !! 0%nat
  = Some (Done Cancelled).
Proof.
  apply (proj1 (proj2 (proj2 (proj2 (connect_then_disconnect_at_once example_outage
                                       example_loop "server.py"
                                       eq_refl eq_refl eq_refl))))).
Defined.

Lemma disconnect_while_running_witness :
  tasks (app_state (run_loop example_outage 4
                      (enqueue DisconnectJob example_connected_loop))) !! 0%nat
  = Some (Done Cancelled).
Proof.
  apply (proj1 (proj2 (proj2 (proj2 (disconnect_while_running example_outage
                                       example_connected_loop 0 Idle
                                       eq_refl eq_refl eq_refl eq_refl eq_refl
                                       eq_refl))))).
Defined.

Lemma late_completion_callback_forgets_new_task_witness :
  is_connected
    (tasks (app_state
              (resumed example_outage 1
                 (resumed example_outage 1
                    (run_loop example_outage 4
                       (enqueue (ConnectJob "server.py")
                          (enqueue (RunnerStep 0 (Throw (mkExn ClosedResourceError
                                                               EmptyString)))
                                   example_connected_loop)))))))
    (mcp_handler (app_state
                    (resumed example_outage 1
                       (resumed example_outage 1
                          (run_loop example_outage 4
                             (enqueue (ConnectJob "server.py")
                                (enqueue (RunnerStep 0 (Throw (mkExn ClosedResourceError
                                                                     EmptyString)))
                                         example_connected_loop)))))))
  = false.
Proof.
  apply (proj2 (proj2 (proj2 (proj2 (proj2 (proj2
           (late_completion_callback_forgets_new_task example_outage
              example_connected_loop 0 Idle (mkExn ClosedResourceError EmptyString)
              "server.py" eq_refl eq_refl eq_refl eq_refl eq_refl eq_refl
              ltac:(discriminate) eq_refl))))))).
Defined.

Lemma history_keeps_system_prompt_witness :
  (exists rest, messages example_session = system_message :: rest)
  /\ (exists rest, messages example_waiting = system_message :: rest)
  /\ (forall h,
        h ∈ snapshots (drop (length (trace example_session))
                            (trace (_process_llm_interaction example_busy_turn
                                                             example_session).2))
        \/ h ∈ snapshots (drop (length (trace example_session))
                               (trace (list_mcp_tools example_busy_turn
                                                      example_session).2)) ->
        exists rest, h = system_message :: rest).
Proof.
  assert (reachable example_sent) as Hsent.
  { unfold example_sent. cbv zeta.
    apply reachable_send_message, reachable_update_config,
      reachable_send_message, reachable_update_config.
    do 3 apply reachable_job. apply reachable_init. }
  assert (reachable example_session) as Hsession
    by (apply reachable_process, Hsent).
  assert (reachable example_waiting) as Hwaiting.
  { apply (reachable_turn_suspended example_busy_turn example_sent); [exact Hsent|].
    apply (list_elem_of_lookup_2 _ 1%nat). vm_compute. reflexivity. }
  split; [|split].
  - apply (proj1 (history_keeps_system_prompt example_session Hsession)).
  - apply (proj1 (history_keeps_system_prompt example_waiting Hwaiting)).
  - apply (proj2 (proj2 (proj2 (history_keeps_system_prompt example_session Hsession)))
             example_busy_turn).
Defined.
